(** * Market-data bridge: normalisation and ingestion

    A shallow embedding of [bridge/bridge.py] (the polling connectors and the
    scheduler tick) and of [bridge/telegram_bot.py] (the text extractor), with
    the part of Python's semantics the two files rely on: truthiness,
    [in], subscription, slicing, unpacking, [float()] and exceptions.

    Python floats are IEEE 754 binary64 numbers; they are modelled by Rocq's
    primitive floats, which are the same numbers with the same rounding. *)

From Stdlib Require Import ZArith NArith List String Ascii Bool Lia Floats.
Import ListNotations.

Set Implicit Arguments.

(** ** Python values, exceptions and builtins *)

Module Py.

Local Open Scope N_scope.

(** A Python [str] is a sequence of Unicode code points. *)
Definition pystr := list N.

(** The code points of an ASCII literal of the source. *)
Definition lit (s : string) : pystr :=
  map N_of_ascii (list_ascii_of_string s).

Fixpoint str_eqb (a b : pystr) : bool :=
  match a, b with
  | [], [] => true
  | x :: a', y :: b' => (x =? y) && str_eqb a' b'
  | _, _ => false
  end.

Fixpoint starts_with (p s : pystr) : bool :=
  match p, s with
  | [], _ => true
  | x :: p', y :: s' => (x =? y) && starts_with p' s'
  | _ :: _, [] => false
  end.

(** [sub in s] on two strings. *)
Fixpoint str_contains (sub s : pystr) : bool :=
  starts_with sub s ||
  match s with
  | [] => false
  | _ :: s' => str_contains sub s'
  end.

(** What [json.loads] produces, and what the connectors compute with. A dict
    is kept as its items in insertion order, which is the order Python
    iterates it in. *)
#[warnings="-register-all"]
Inductive pyval : Type :=
| PNone
| PBool (b : bool)
| PInt (z : Z)
| PFloat (f : float)
| PStr (s : pystr)
| PList (l : list pyval)
| PDict (items : list (pystr * pyval)).

Inductive exn : Type :=
| TypeError
| KeyError
| ValueError
| AttributeError
| OverflowError
| RequestException.

(** A computation that returns or raises. *)
Inductive res (A : Type) : Type :=
| Ok (a : A)
| Raise (e : exn).
Arguments Ok {A} a.
Arguments Raise {A} e.

Definition bind {A B} (m : res A) (k : A -> res B) : res B :=
  match m with
  | Ok a => k a
  | Raise e => Raise e
  end.

Notation "x <- m ;; k" := (bind m (fun x => k))
  (at level 61, m at next level, right associativity).

Fixpoint map_res {A B} (f : A -> res B) (l : list A) : res (list B) :=
  match l with
  | [] => Ok []
  | x :: l' =>
      y <- f x ;; ys <- map_res f l' ;; Ok (y :: ys)
  end.

(** [bool(v)], as [if v:] and [and] test it. *)
Definition truthy (v : pyval) : bool :=
  match v with
  | PNone => false
  | PBool b => b
  | PInt z => negb (z =? 0)%Z
  | PFloat f => negb (PrimFloat.eqb f 0%float)
  | PStr s => match s with [] => false | _ => true end
  | PList l => match l with [] => false | _ => true end
  | PDict items => match items with [] => false | _ => true end
  end.

Fixpoint dict_find (k : pystr) (items : list (pystr * pyval)) : option pyval :=
  match items with
  | [] => None
  | (k', v) :: rest => if str_eqb k k' then Some v else dict_find k rest
  end.

(** [v == 'k'] for a string literal: only a string is equal to a string. *)
Definition eq_str (v : pyval) (k : pystr) : bool :=
  match v with
  | PStr s => str_eqb s k
  | _ => false
  end.

(** ['k' in v]. *)
Definition contains (k : pystr) (v : pyval) : res bool :=
  match v with
  | PDict items => Ok (match dict_find k items with Some _ => true | None => false end)
  | PList l => Ok (existsb (fun x => eq_str x k) l)
  | PStr s => Ok (str_contains k s)
  | _ => Raise TypeError
  end.

(** [v['k']]. *)
Definition getitem (v : pyval) (k : pystr) : res pyval :=
  match v with
  | PDict items =>
      match dict_find k items with
      | Some x => Ok x
      | None => Raise KeyError
      end
  | _ => Raise TypeError
  end.

(** [v.get('k')]: only a dict has the method. *)
Definition get (v : pyval) (k : pystr) : res pyval :=
  match v with
  | PDict items =>
      match dict_find k items with
      | Some x => Ok x
      | None => Ok PNone
      end
  | _ => Raise AttributeError
  end.

(** [v[:n]]. On a dict the slice is refused as a key ([TypeError] up to
    Python 3.11, [KeyError] from 3.12 on); no caller tells them apart. *)
Definition slice_to (n : nat) (v : pyval) : res pyval :=
  match v with
  | PList l => Ok (PList (firstn n l))
  | PStr s => Ok (PStr (firstn n s))
  | _ => Raise TypeError
  end.

(** The items [for x in v] runs over. *)
Definition iter (v : pyval) : res (list pyval) :=
  match v with
  | PList l => Ok l
  | PStr s => Ok (map (fun c => PStr [c]) s)
  | PDict items => Ok (map (fun kv => PStr (fst kv)) items)
  | _ => Raise TypeError
  end.

(** [p, v = x]. *)
Definition unpack2 (x : pyval) : res (pyval * pyval) :=
  xs <- iter x ;;
  match xs with
  | [p; v] => Ok (p, v)
  | _ => Raise ValueError
  end.

(** [c and k], where [k] is evaluated only when [c] holds. *)
Definition and_then (c : bool) (k : res bool) : res bool :=
  if c then k else Ok false.

(** *** [float()] *)

(** The binary64 number nearest to [num / den], ties to even: the rounding of
    CPython's string and integer conversions. *)
Definition ratio_to_float (neg : bool) (num den : Z) : float :=
  match num, den with
  | Zpos n, Zpos d =>
      SF2Prim (SFdiv prec emax (S754_finite neg n 0) (S754_finite false d 0))
  | Zpos _, _ => nan
  | _, _ => if neg then neg_zero else zero
  end.

(** The float nearest to [m * 10 ^ e]. *)
Definition decimal_to_float (neg : bool) (m e : Z) : float :=
  if (m =? 0)%Z then (if neg then neg_zero else zero)
  else ratio_to_float neg (m * 10 ^ Z.max e 0) (10 ^ Z.max (- e) 0).

(** [float(z)] on an int: [OverflowError] when the rounded value is not
    finite. *)
Definition int_to_float (z : Z) : res float :=
  let f := ratio_to_float (z <? 0)%Z (Z.abs z) 1 in
  if is_infinity f then Raise OverflowError else Ok f.

Definition is_digit (c : N) : bool := (48 <=? c) && (c <=? 57).
Definition is_space (c : N) : bool := ((9 <=? c) && (c <=? 13)) || (c =? 32).
Definition lower (c : N) : N := if (65 <=? c) && (c <=? 90) then c + 32 else c.

(** Non-ASCII white space ([str.isspace], Unicode 14). *)
Definition unicode_spaces : list N :=
  [133; 160; 5760; 8192; 8193; 8194; 8195; 8196; 8197; 8198; 8199; 8200;
   8201; 8202; 8232; 8233; 8239; 8287; 12288].

(** The digit zero of every non-ASCII decimal script (Unicode 14); the nine
    other digits follow it. *)
Definition unicode_zeros : list N :=
  [1632; 1776; 1984; 2406; 2534; 2662; 2790; 2918; 3046; 3174; 3302; 3430;
   3558; 3664; 3792; 3872; 4160; 4240; 6112; 6160; 6470; 6608; 6784; 6800;
   6992; 7088; 7232; 7248; 42528; 43216; 43264; 43472; 43504; 43600; 44016;
   65296; 66720; 68912; 69734; 69872; 69942; 70096; 70384; 70736; 70864;
   71248; 71360; 71472; 71904; 72016; 72784; 73040; 73120; 92768; 92864;
   93008; 120782; 120792; 120802; 120812; 120822; 123200; 123632; 125264;
   130032].

(** [float()] first rewrites white space to a blank and decimal digits to
    ASCII digits; any other character from 127 on ends in [ValueError]. *)
Definition to_ascii (c : N) : option N :=
  if c <? 127 then Some c
  else if existsb (N.eqb c) unicode_spaces then Some 32
  else
    match find (fun z => (z <=? c) && (c <? z + 10)) unicode_zeros with
    | Some z => Some (48 + (c - z))
    | None => None
    end.

Fixpoint transform (s : pystr) : option pystr :=
  match s with
  | [] => Some []
  | c :: s' =>
      match to_ascii c, transform s' with
      | Some a, Some t => Some (a :: t)
      | _, _ => None
      end
  end.

(** Underscores are dropped; each must stand between two digits. *)
Fixpoint drop_underscores (prev : N) (s : pystr) : option pystr :=
  match s with
  | [] => if prev =? 95 then None else Some []
  | c :: s' =>
      if c =? 95 then
        if is_digit prev then drop_underscores c s' else None
      else if (prev =? 95) && negb (is_digit c) then None
      else option_map (cons c) (drop_underscores c s')
  end.

Fixpoint lstrip (s : pystr) : pystr :=
  match s with
  | c :: s' => if is_space c then lstrip s' else s
  | [] => []
  end.

Definition strip (s : pystr) : pystr := rev (lstrip (rev (lstrip s))).

(** The leading digits of [s] and what follows them. *)
Fixpoint span_digits (s : pystr) : pystr * pystr :=
  match s with
  | c :: s' =>
      if is_digit c then let (d, r) := span_digits s' in (c :: d, r)
      else ([], s)
  | [] => ([], [])
  end.

Definition digits_value (ds : pystr) : Z :=
  fold_left (fun acc d => (10 * acc + Z.of_N (d - 48))%Z) ds 0%Z.

Fixpoint drop_zeros (s : pystr) : pystr :=
  match s with
  | c :: s' => if c =? 48 then drop_zeros s' else s
  | [] => []
  end.

Definition split_sign (s : pystr) : bool * pystr :=
  match s with
  | 45 :: s' => (true, s')
  | 43 :: s' => (false, s')
  | _ => (false, s)
  end.

Definition MAX_DIGITS : N := 1000000000.

(** An unsigned decimal numeral with an optional fraction and exponent, which
    must be the whole of [s]: its digits as an integer and its power of ten.
    (CPython saturates an exponent beyond 1.1e9; the rounded value is the
    same.) *)
Definition parse_decimal (s : pystr) : option (Z * Z) :=
  let (ip, r1) := span_digits s in
  let (fp, r2) :=
    match r1 with
    | 46 :: r => span_digits r
    | _ => ([], r1)
    end in
  let ds := (ip ++ fp)%list in
  match ds with
  | [] => None
  | _ =>
      if (MAX_DIGITS <? N.of_nat (List.length (drop_zeros ds)))
         || (MAX_DIGITS <? N.of_nat (List.length fp)) then None
      else
        let m := digits_value ds in
        let fl := Z.of_nat (List.length fp) in
        match r2 with
        | [] => Some (m, (- fl)%Z)
        | c :: r =>
            if (c =? 101) || (c =? 69) then
              let (eneg, r') := split_sign r in
              match span_digits r' with
              | ((_ :: _) as ed, []) =>
                  let e := digits_value ed in
                  Some (m, ((if eneg then - e else e) - fl)%Z)
              | _ => None
              end
            else None
        end
  end.

(** [float(s)] on a string. *)
Definition str_to_float (s : pystr) : res float :=
  match transform s with
  | None => Raise ValueError
  | Some t =>
      match (if existsb (N.eqb 95) t then drop_underscores 0 t else Some t) with
      | None => Raise ValueError
      | Some u =>
          let (neg, body) := split_sign (strip u) in
          match parse_decimal body with
          | Some (m, e) => Ok (decimal_to_float neg m e)
          | None =>
              let w := map lower body in
              if str_eqb w (lit "inf") || str_eqb w (lit "infinity") then
                Ok (if neg then neg_infinity else infinity)
              else if str_eqb w (lit "nan") then Ok nan
              else Raise ValueError
          end
      end
  end.

(** [float(v)]. *)
Definition py_float (v : pyval) : res float :=
  match v with
  | PFloat f => Ok f
  | PInt z => int_to_float z
  | PBool b => Ok (if b then 1%float else 0%float)
  | PStr s => str_to_float s
  | _ => Raise TypeError
  end.

End Py.

(** ** bridge/bridge.py: the polling connectors and the scheduler *)

Module Bridge.
Import Py.

Local Open Scope string_scope.

Record order_book_t : Type := {
  bids : list (float * float);
  asks : list (float * float)
}.

(** A row of [market_data], the dict every connector builds. [price] is kept
    as a Python value: [fetch_fx] stores the rate as it came. *)
Record market_data : Type := {
  source : string;
  symbol : string;
  price : pyval;
  bid : option float;
  ask : option float;
  order_book : option order_book_t;
  raw_data : pyval
}.

(** The outcome of [requests.get]/[requests.post] followed by
    [response.json()]. *)
Inductive response : Type :=
| Unreachable
| NotJson
| Json (data : pyval).

Definition request_json (r : response) : res pyval :=
  match r with
  | Unreachable => Raise RequestException
  | NotJson => Raise ValueError
  | Json data => Ok data
  end.

(** [try: ... except Exception: print(...)] followed by [return None]. *)
Definition or_none {A} (body : res (option A)) : option A :=
  match body with
  | Ok r => r
  | Raise _ => None
  end.

(** The int 1 of the source; subtracting a float from it converts it to 1.0. *)
Definition INTERVAL_SECONDS : float := 1%float.

(** [[float(p), float(v)]] for [p, v] in the side's items. *)
Definition level (x : pyval) : res (float * float) :=
  pv <- unpack2 x ;;
  p <- py_float (fst pv) ;;
  v <- py_float (snd pv) ;;
  Ok (p, v).

(** [[[float(p), float(v)] for p, v in side[:5]]]. *)
Definition levels (side : pyval) : res (list (float * float)) :=
  s <- slice_to 5 side ;;
  xs <- iter s ;;
  map_res level xs.

(** [side[0][0] if side else None]. *)
Definition best (side : list (float * float)) : option float :=
  match side with
  | [] => None
  | (p, _) :: _ => Some p
  end.

Definition of_opt (x : option float) : pyval :=
  match x with
  | Some f => PFloat f
  | None => PNone
  end.

(** [(best_bid + best_ask) / 2 if (best_bid and best_ask) else None]. *)
Definition mid_price (best_bid best_ask : option float) : pyval :=
  if truthy (of_opt best_bid) && truthy (of_opt best_ask) then
    match best_bid, best_ask with
    | Some b, Some a => PFloat ((b + a) / 2)
    | _, _ => PNone
    end
  else PNone.

(** The body both depth connectors share once the keys are known to be
    there. *)
Definition depth_record (src sym : string) (data : pyval) : res market_data :=
  bv <- getitem data (lit "bids") ;;
  bs <- levels bv ;;
  av <- getitem data (lit "asks") ;;
  az <- levels av ;;
  let best_bid := best bs in
  let best_ask := best az in
  Ok {| source := src;
        symbol := sym;
        price := mid_price best_bid best_ask;
        bid := best_bid;
        ask := best_ask;
        order_book := Some {| bids := bs; asks := az |};
        raw_data := data |}.

Definition fetch_bitkub_try (r : response) : res (option market_data) :=
  data <- request_json r ;;
  c <- and_then (truthy data)
         (hb <- contains (lit "bids") data ;;
          and_then hb (contains (lit "asks") data)) ;;
  if c then
    rec <- depth_record "bitkub" "THB_USDT" data ;; Ok (Some rec)
  else Ok None.

Definition fetch_bitkub (r : response) : option market_data :=
  or_none (fetch_bitkub_try r).

Definition fetch_binance_th_try (r : response) : res (option market_data) :=
  data <- request_json r ;;
  c <- (hb <- contains (lit "bids") data ;;
        and_then hb (contains (lit "asks") data)) ;;
  if c then
    rec <- depth_record "binance_th" "USDTTHB" data ;; Ok (Some rec)
  else Ok None.

Definition fetch_binance_th (r : response) : option market_data :=
  or_none (fetch_binance_th_try r).

Definition fetch_maxbit_try (r : response) : res (option market_data) :=
  data <- request_json r ;;
  code <- get data (lit "responseCode") ;;
  c <- and_then (eq_str code (lit "000")) (contains (lit "result") data) ;;
  if c then
    result <- getitem data (lit "result") ;;
    b <- getitem result (lit "bid") ;;
    bid_ <- py_float b ;;
    a <- getitem result (lit "ask") ;;
    ask_ <- py_float a ;;
    Ok (Some {| source := "maxbit";
                symbol := "USDT";
                price := PFloat ((bid_ + ask_) / 2);
                bid := Some bid_;
                ask := Some ask_;
                order_book := None;
                raw_data := data |})
  else Ok None.

Definition fetch_maxbit (r : response) : option market_data :=
  or_none (fetch_maxbit_try r).

Definition fetch_fx_try (r : response) : res (option market_data) :=
  data <- request_json r ;;
  hr <- contains (lit "rates") data ;;
  c <- and_then hr
         (rates <- getitem data (lit "rates") ;; contains (lit "THB") rates) ;;
  if c then
    rates <- getitem data (lit "rates") ;;
    rate <- getitem rates (lit "THB") ;;
    Ok (Some {| source := "fx";
                symbol := "USD_THB";
                price := rate;
                bid := None;
                ask := None;
                order_book := None;
                raw_data := data |})
  else Ok None.

Definition fetch_fx (r : response) : option market_data :=
  or_none (fetch_fx_try r).

(** The store behind [supabase.table('market_data')]: every batch an
    [insert(...).execute()] was called with, and the rows it accepted. *)
Record store : Type := {
  attempts : list (list market_data);
  rows : list market_data
}.

(** [insert(updates).execute()] inside [try/except]: a failure is printed and
    dropped. *)
Definition insert (fails : bool) (updates : list market_data) (st : store) : store :=
  {| attempts := attempts st ++ [updates];
     rows := if fails then rows st else rows st ++ updates |}.

(** [max(0, x)]: the first argument is kept unless [x > 0]. *)
Definition max0 (x : float) : pyval :=
  if (0 <? x)%float then PFloat x else PInt 0.

(** [sleep_time = max(0, INTERVAL_SECONDS - elapsed)]. *)
Definition sleep_time (elapsed : float) : pyval :=
  max0 (INTERVAL_SECONDS - elapsed).

(** What one iteration of [while True] meets: the four venues' answers, the
    store's mood and the two readings of [time.time()]. *)
Record tick_env : Type := {
  bitkub_response : response;
  binance_th_response : response;
  maxbit_response : response;
  fx_response : response;
  insert_fails : bool;
  start_time : float;
  end_time : float
}.

(** [if x: updates.append(x)]; a row is a non-empty dict, hence truthy. *)
Definition append_if (x : option market_data) (updates : list market_data)
  : list market_data :=
  match x with
  | Some r => updates ++ [r]
  | None => updates
  end.

Definition collect (env : tick_env) : list market_data :=
  let updates := [] in
  let updates := append_if (fetch_bitkub (bitkub_response env)) updates in
  let updates := append_if (fetch_binance_th (binance_th_response env)) updates in
  let updates := append_if (fetch_maxbit (maxbit_response env)) updates in
  let updates := append_if (fetch_fx (fx_response env)) updates in
  updates.

(** One iteration of the loop of [main]: the store afterwards and the time
    handed to [time.sleep]. *)
Definition tick (env : tick_env) (st : store) : store * pyval :=
  let updates := collect env in
  let st' :=
    match updates with
    | [] => st
    | _ :: _ => insert (insert_fails env) updates st
    end in
  let elapsed := (end_time env - start_time env)%float in
  (st', sleep_time elapsed).

(** The first ticks of [main], one per environment. *)
Definition run (envs : list tick_env) (st : store) : store :=
  fold_left (fun s env => fst (tick env s)) envs st.

End Bridge.

(** ** bridge/telegram_bot.py: the text extractor and the message handler *)

Module TelegramBot.
Import Py.
Import Bridge.

Local Open Scope N_scope.

(** The three characters between a marker and its number, as the source file
    spells them. *)
Definition marker_word : pystr := [224; 184; 8222; 224; 184; 183; 224; 184; 173].

(** The literal part of a pattern: [A>B \(Side\) <word> ], the escapes
    resolved. *)
Definition marker (a b side : string) : pystr :=
  (lit a ++ lit ">" ++ lit b ++ lit " (" ++ lit side ++ lit ") "
     ++ marker_word ++ lit " ")%list.

Record pattern : Type := {
  bid_marker : pystr;
  ask_marker : pystr
}.

(** The dict [patterns], in insertion order. *)
Definition patterns : list (string * pattern) :=
  [ ("USDT"%string,
      {| bid_marker := marker "USDT" "THB" "Bid";
         ask_marker := marker "THB" "USDT" "Ask" |});
    ("USDC"%string,
      {| bid_marker := marker "USDC" "THB" "Bid";
         ask_marker := marker "THB" "USDC" "Ask" |}) ].

(** A character of the class [[0-9.]]. *)
Definition is_num_char (c : N) : bool := is_digit c || (c =? 46).

(** The run [[0-9.]*] at the head of [s], as long as it gets. *)
Fixpoint take_num (s : pystr) : pystr :=
  match s with
  | c :: s' => if is_num_char c then c :: take_num s' else []
  | [] => []
  end.

(** The group of [m([0-9.]+)] matched at the head of [s]. *)
Definition match_here (m s : pystr) : option pystr :=
  if starts_with m s then
    match take_num (skipn (List.length m) s) with
    | [] => None
    | g => Some g
    end
  else None.

(** [re.search(m + '([0-9.]+)', text)]: [group(1)] of the leftmost match. *)
Fixpoint search (m text : pystr) : option pystr :=
  match match_here m text with
  | Some g => Some g
  | None =>
      match text with
      | [] => None
      | _ :: text' => search m text'
      end
  end.

(** The body of the [for] loop of [parse_prices] for one entry of
    [patterns]. *)
Definition parse_symbol (text : pystr) (results : list market_data)
  (entry : string * pattern) : res (list market_data) :=
  let (symbol_, p) := entry in
  let bid_match := search (bid_marker p) text in
  let ask_match := search (ask_marker p) text in
  match bid_match, ask_match with
  | Some bg, Some ag =>
      bid_ <- py_float (PStr bg) ;;
      ask_ <- py_float (PStr ag) ;;
      Ok (results ++
            [{| source := "bitazza";
                symbol := symbol_;
                price := PFloat ((bid_ + ask_) / 2);
                bid := Some bid_;
                ask := Some ask_;
                order_book := None;
                raw_data := PDict [(lit "full_text", PStr text)] |}])%list
  | _, _ => Ok results
  end.

Fixpoint fold_res {A B} (f : A -> B -> res A) (l : list B) (a : A) : res A :=
  match l with
  | [] => Ok a
  | x :: l' => a' <- f a x ;; fold_res f l' a'
  end.

Definition parse_prices (text : pystr) : res (list market_data) :=
  fold_res (parse_symbol text) patterns [].

(** The pin sign before a symbol, as the source file spells it. *)
Definition pin : pystr := [240; 376; 8220; 338].

Record message : Type := {
  text : option pystr;
  chat_id : Z
}.

(** [handle_message]: [GROUP_ID] is the configured restriction, [msg] is
    [update.message]. The call of [parse_prices] stands outside the [try]. *)
Definition handle_message (GROUP_ID : option Z) (msg : option message)
  (insert_fails : bool) (st : store) : res store :=
  match msg with
  | None => Ok st
  | Some m =>
      match text m with
      | None => Ok st
      | Some [] => Ok st
      | Some t =>
          if match GROUP_ID with
             | Some g => negb (g =? 0)%Z && negb (chat_id m =? g)%Z
             | None => false
             end
          then Ok st
          else if str_contains (pin ++ lit "USDT") t
                  || str_contains (pin ++ lit "USDC") t then
            updates <- parse_prices t ;;
            match updates with
            | [] => Ok st
            | _ :: _ => Ok (insert insert_fails updates st)
            end
          else Ok st
      end
  end.

End TelegramBot.

(** ** bridge/debug_bridge.py: the three checks *)

Module DebugBridge.
Import Py.
Import Bridge.

Local Open Scope string_scope.

(** The line a check prints: the quote it computed, the payload the desk
    sent with a status other than success, or the exception it caught. *)
Inductive report : Type :=
| Quote (venue : string) (bid_ ask_ : option float) (price_ : pyval)
| ErrorResponse (venue : string) (data : pyval)
| Error (venue : string) (e : exn).

(** [try: ... except Exception as e: print(f"<venue> Error: {e}")]. *)
Definition or_error (venue : string) (body : res report) : report :=
  match body with
  | Ok rep => rep
  | Raise e => Error venue e
  end.

(** The body [check_bitkub] and [check_binance] share; neither tests for the
    keys before it subscripts. *)
Definition check_depth (venue : string) (r : response) : res report :=
  d <- request_json r ;;
  bv <- getitem d (lit "bids") ;;
  bs <- levels bv ;;
  av <- getitem d (lit "asks") ;;
  az <- levels av ;;
  let best_bid := best bs in
  let best_ask := best az in
  let price_ := mid_price best_bid best_ask in
  Ok (Quote venue best_bid best_ask price_).

Definition check_bitkub (r : response) : report :=
  or_error "Bitkub" (check_depth "Bitkub" r).

Definition check_binance (r : response) : report :=
  or_error "BinanceTH" (check_depth "BinanceTH" r).

Definition check_maxbit (r : response) : report :=
  or_error "MaxBit"
    (d <- request_json r ;;
     code <- get d (lit "responseCode") ;;
     if eq_str code (lit "000") then
       result <- getitem d (lit "result") ;;
       b <- getitem result (lit "bid") ;;
       bid_ <- py_float b ;;
       a <- getitem result (lit "ask") ;;
       ask_ <- py_float a ;;
       let price_ := ((bid_ + ask_) / 2)%float in
       Ok (Quote "MaxBit" (Some bid_) (Some ask_) (PFloat price_))
     else Ok (ErrorResponse "MaxBit" d)).

(** The script: the three checks, one after the other. *)
Definition main (bitkub binance maxbit : response) : list report :=
  [check_bitkub bitkub; check_binance binance; check_maxbit maxbit].

End DebugBridge.

(** ** The vocabulary of the properties *)

(** A row some connector or the extractor hands to the store. *)
Inductive emits : Bridge.market_data -> Prop :=
| emits_bitkub resp r : Bridge.fetch_bitkub resp = Some r -> emits r
| emits_binance_th resp r : Bridge.fetch_binance_th resp = Some r -> emits r
| emits_maxbit resp r : Bridge.fetch_maxbit resp = Some r -> emits r
| emits_fx resp r : Bridge.fetch_fx resp = Some r -> emits r
| emits_text text rs r :
    TelegramBot.parse_prices text = Py.Ok rs -> In r rs -> emits r.

(** The four sources of the polling loop, in the order it asks them. *)
Definition polled_sources : list string :=
  ["bitkub"; "binance_th"; "maxbit"; "fx"]%string.

(** The row [parse_prices] builds for a symbol. *)
Definition text_row (text : Py.pystr) (sym : string) (b a : float)
  : Bridge.market_data :=
  {| Bridge.source := "bitazza";
     Bridge.symbol := sym;
     Bridge.price := Py.PFloat ((b + a) / 2);
     Bridge.bid := Some b;
     Bridge.ask := Some a;
     Bridge.order_book := None;
     Bridge.raw_data := Py.PDict [(Py.lit "full_text", Py.PStr text)] |}.

(** What one entry of [patterns] adds to the result when nothing raises:
    nothing if a marker is missing, one row if both are found and both
    numbers convert. *)
Inductive symbol_rows (text : Py.pystr) (e : string * TelegramBot.pattern)
  : list Bridge.market_data -> Prop :=
| rows_none :
    TelegramBot.search (TelegramBot.bid_marker (snd e)) text = None \/
    TelegramBot.search (TelegramBot.ask_marker (snd e)) text = None ->
    symbol_rows text e []
| rows_one bg ag b a :
    TelegramBot.search (TelegramBot.bid_marker (snd e)) text = Some bg ->
    TelegramBot.search (TelegramBot.ask_marker (snd e)) text = Some ag ->
    Py.py_float (Py.PStr bg) = Py.Ok b ->
    Py.py_float (Py.PStr ag) = Py.Ok a ->
    symbol_rows text e [text_row text (fst e) b a].

(** The two entries of [patterns]. *)
Definition usdt_entry : string * TelegramBot.pattern :=
  nth 0 TelegramBot.patterns (""%string, TelegramBot.Build_pattern [] []).
Definition usdc_entry : string * TelegramBot.pattern :=
  nth 1 TelegramBot.patterns (""%string, TelegramBot.Build_pattern [] []).

(** The status code of a desk response, when it is a JSON object. *)
Definition response_code (resp : Bridge.response) : option Py.pyval :=
  match resp with
  | Bridge.Json (Py.PDict items) => Py.dict_find (Py.lit "responseCode") items
  | _ => None
  end.

(** The result field of a desk response, when it is a JSON object. *)
Definition response_result (resp : Bridge.response) : option Py.pyval :=
  match resp with
  | Bridge.Json (Py.PDict items) => Py.dict_find (Py.lit "result") items
  | _ => None
  end.

(** What the loop may hand to the store in one call: at least one row, at
    most four, from pairwise different polled sources. *)
Definition batch_ok (b : list Bridge.market_data) : Prop :=
  b <> [] /\ (List.length b <= 4)%nat /\
  NoDup (map Bridge.source b) /\ incl (map Bridge.source b) polled_sources.

(** The batch a tick writes, if it writes. *)
Definition written (b : list Bridge.market_data) : list (list Bridge.market_data) :=
  match b with
  | [] => []
  | _ :: _ => [b]
  end.

(** A depth row that lacks its asks: no price, no ask, the bids kept. *)
Definition asks_missing (bs : list (float * float)) (r : Bridge.market_data)
  : Prop :=
  Bridge.price r = Py.PNone /\ Bridge.ask r = None /\ Bridge.bid r <> None /\
  Bridge.order_book r = Some {| Bridge.bids := bs; Bridge.asks := [] |}.

(** Rows of a depth connector. *)
Definition depth_fetch (resp : Bridge.response) (r : Bridge.market_data) : Prop :=
  Bridge.fetch_bitkub resp = Some r \/ Bridge.fetch_binance_th resp = Some r.

(** [v < 0] on a number. *)
Definition negative (v : Py.pyval) : bool :=
  match v with
  | Py.PInt z => (z <? 0)%Z
  | Py.PFloat f => (f <? 0)%float
  | _ => false
  end.

(** The same row under another connector's labels. *)
Definition relabel (src sym : string) (r : Bridge.market_data)
  : Bridge.market_data :=
  {| Bridge.source := src;
     Bridge.symbol := sym;
     Bridge.price := Bridge.price r;
     Bridge.bid := Bridge.bid r;
     Bridge.ask := Bridge.ask r;
     Bridge.order_book := Bridge.order_book r;
     Bridge.raw_data := Bridge.raw_data r |}.

(** The rows of a batch that do not come from source [s]. *)
Definition from_others (s : string) (b : list Bridge.market_data)
  : list Bridge.market_data :=
  filter (fun x => negb (String.eqb (Bridge.source x) s)) b.

(** A run of [[0-9.]] that is a float literal: at most one point and at
    least one digit. *)
Definition sound_number (g : Py.pystr) : bool :=
  (count_occ N.eq_dec g 46%N <=? 1)%nat && existsb Py.is_digit g.

(** Both patterns of an entry match the text, and one of the two numbers is
    not a float literal. *)
Definition malformed_quote (text : Py.pystr) (e : string * TelegramBot.pattern)
  : Prop :=
  exists bg ag,
    TelegramBot.search (TelegramBot.bid_marker (snd e)) text = Some bg /\
    TelegramBot.search (TelegramBot.ask_marker (snd e)) text = Some ag /\
    (sound_number bg = false \/ sound_number ag = false).

(** The message carries one of the two headers the handler looks for. *)
Definition has_header (t : Py.pystr) : bool :=
  Py.str_contains (TelegramBot.pin ++ Py.lit "USDT") t
  || Py.str_contains (TelegramBot.pin ++ Py.lit "USDC") t.

(** The quote a row carries, as a check prints it. *)
Definition quote_of (venue : string) (r : Bridge.market_data)
  : DebugBridge.report :=
  DebugBridge.Quote venue (Bridge.bid r) (Bridge.ask r) (Bridge.price r).

(** ** Sample payloads *)

Module Samples.
Import Py Bridge TelegramBot.

Local Open Scope string_scope.

(** The float a decimal numeral denotes, in JSON as in [float()]. *)
Definition num (s : string) : float :=
  match str_to_float (lit s) with
  | Ok f => f
  | Raise _ => nan
  end.

Definition str (s : string) : pyval := PStr (lit s).

Definition dict (items : list (string * pyval)) : pyval :=
  PDict (map (fun kv => (lit (fst kv), snd kv)) items).

Definition pair (p v : string) : pyval := PList [PFloat (num p); PFloat (num v)].

(** [{"bids": [[31.10, 100]], "asks": []}] *)
Definition one_sided_book : pyval :=
  dict [("bids", PList [pair "31.10" "100"]); ("asks", PList [])].

(** [{"bids": [[0.0, 100]], "asks": [[31.30, 80]]}] *)
Definition zero_bid_book : pyval :=
  dict [("bids", PList [pair "0.0" "100"]); ("asks", PList [pair "31.30" "80"])].

Definition six_bids : list pyval :=
  [pair "31.10" "100"; pair "31.09" "20"; pair "31.08" "30";
   pair "31.07" "40"; pair "31.06" "50"; pair "31.05" "60"].

Definition six_asks : list pyval :=
  [pair "31.30" "80"; pair "31.31" "10"; pair "31.32" "15";
   pair "31.33" "25"; pair "31.34" "35"; pair "31.35" "45"].

(** A book of six levels a side, although five were asked for. *)
Definition deep_book : list (pystr * pyval) :=
  [(lit "bids", PList six_bids); (lit "asks", PList six_asks)].

(** [{"responseCode": "001", "result": {"bid": "31.15", "ask": "31.25"}}] *)
Definition rejected_otc : pyval :=
  dict [("responseCode", str "001");
        ("result", dict [("bid", str "31.15"); ("ask", str "31.25")])].

(** A broadcast quoting one symbol: both markers, each followed by
    [bid_text] and [ask_text]. *)
Definition quote (a : string) (bid_text ask_text : string) : pystr :=
  (lit "* " ++ marker a "THB" "Bid" ++ lit bid_text ++ lit " / "
     ++ marker "THB" a "Ask" ++ lit ask_text ++ lit " ")%list.

Definition both_symbols_text : pystr :=
  (pin ++ lit "USDT " ++ quote "USDT" "31.188" "31.245"
     ++ pin ++ lit "USDC " ++ quote "USDC" "31.150" "31.290")%list.

(** The bid ends a sentence: the full stop belongs to [[0-9.]+]. *)
Definition full_stop_text : pystr :=
  (pin ++ lit "USDT " ++ quote "USDT" "31.188." "31.245")%list.

(** A sound USDT quote followed by a USDC quote with a second point. *)
Definition second_point_text : pystr :=
  (pin ++ lit "USDT " ++ quote "USDT" "31.188" "31.245"
     ++ pin ++ lit "USDC " ++ quote "USDC" "31.1.5" "31.290")%list.

(** A message that quotes USDT alone. *)
Definition usdt_only_text : pystr :=
  (pin ++ lit "USDT " ++ quote "USDT" "31.188" "31.245")%list.

Definition usdt_row (text : pystr) : market_data :=
  text_row text "USDT" (num "31.188") (num "31.245").

Definition usdc_row (text : pystr) : market_data :=
  text_row text "USDC" (num "31.150") (num "31.290").

(** A book whose second bid has a price that is no number. *)
Definition broken_level_book : list (pystr * pyval) :=
  [(lit "bids", PList [pair "31.10" "100"; PList [str "n/a"; str "20"]]);
   (lit "asks", PList [pair "31.30" "80"])].

(** [{"responseCode": "000", "result": {"bid": "31.15", "ask": "31.25"}}] *)
Definition accepted_otc : list (pystr * pyval) :=
  [(lit "responseCode", str "000");
   (lit "result", dict [("bid", str "31.15"); ("ask", str "31.25")])].

(** [{"rates": {"THB": 35.5}}] *)
Definition fx_table : list (pystr * pyval) :=
  [(lit "rates", PDict [(lit "THB", PFloat (num "35.5"))])].

(** The bid marker three times: without a number, then with two different
    ones. *)
Definition twice_quoted_text : pystr :=
  (lit "old: " ++ marker "USDT" "THB" "Bid" ++ lit "n/a, new: "
     ++ marker "USDT" "THB" "Bid" ++ lit "31.188" ++ lit ", then "
     ++ marker "USDT" "THB" "Bid" ++ lit "30.5")%list.

Definition message_of (t : pystr) (chat : Z) : message :=
  {| text := Some t; chat_id := chat |}.

Definition empty_store : store := {| attempts := []; rows := [] |}.

(** A tick in which Binance TH times out and the store refuses the
    insert. *)
Definition rough_tick : tick_env :=
  {| bitkub_response := Json one_sided_book;
     binance_th_response := Unreachable;
     maxbit_response := Json (PDict accepted_otc);
     fx_response := Json (PDict fx_table);
     insert_fails := true;
     start_time := num "100.0";
     end_time := num "100.3" |}.

(** The same tick with Binance TH answering. *)
Definition calm_tick : tick_env :=
  {| bitkub_response := Json one_sided_book;
     binance_th_response := Json (PDict deep_book);
     maxbit_response := Json (PDict accepted_otc);
     fx_response := Json (PDict fx_table);
     insert_fails := true;
     start_time := num "100.0";
     end_time := num "100.3" |}.

End Samples.

(** * Properties *)

Import Py Bridge TelegramBot.

(** ** Generic facts about the builtins *)

Lemma str_eqb_eq (a b : pystr) : str_eqb a b = true <-> a = b.
Proof.
  revert b; induction a as [|x a IH]; intros [|y b]; simpl; split;
    try congruence; try reflexivity.
  - intros H. apply andb_prop in H as [Hx Hab].
    apply N.eqb_eq in Hx. apply IH in Hab. congruence.
  - intros H. injection H as -> ->.
    rewrite N.eqb_refl. simpl. now apply IH.
Qed.

Lemma Ok_inj {A} (a b : A) : Ok a = Ok b -> a = b.
Proof. congruence. Qed.

Lemma bind_ok {A B} (m : res A) (k : A -> res B) (b : B) :
  bind m k = Ok b -> exists a, m = Ok a /\ k a = Ok b.
Proof.
  destruct m as [a|e]; simpl; intros H; [eauto | discriminate].
Qed.

Lemma map_res_Forall2 {A B} (f : A -> res B) (l : list A) (ys : list B) :
  map_res f l = Ok ys -> Forall2 (fun x y => f x = Ok y) l ys.
Proof.
  revert ys; induction l as [|x l IH]; simpl; intros ys H.
  - injection H as <-. constructor.
  - apply bind_ok in H as (y & Hy & H).
    apply bind_ok in H as (ys' & Hys & H).
    injection H as <-. constructor; auto.
Qed.

Lemma map_res_length {A B} (f : A -> res B) (l : list A) (ys : list B) :
  map_res f l = Ok ys -> List.length ys = List.length l.
Proof.
  intros H. apply map_res_Forall2 in H.
  symmetry. eapply Forall2_length; eauto.
Qed.

(** A tactic that opens a chain of binds known to return. *)
Ltac open_bind H :=
  let a := fresh "a" in
  let Ha := fresh "Ha" in
  apply bind_ok in H as (a & Ha & H).

(** ** The depth connectors *)

Lemma levels_length (side : pyval) (ls : list (float * float)) :
  levels side = Ok ls -> (List.length ls <= 5)%nat.
Proof.
  unfold levels. intros H.
  open_bind H. open_bind H.
  apply map_res_length in H. rewrite H.
  destruct side; unfold slice_to in Ha; try discriminate;
    apply Ok_inj in Ha; subst a; unfold iter in Ha0;
    apply Ok_inj in Ha0; subst a0;
    rewrite ?length_map; apply firstn_le_length.
Qed.

Lemma levels_list (l : list pyval) :
  levels (PList l) = map_res level (firstn 5 l).
Proof. reflexivity. Qed.

Lemma best_none (ls : list (float * float)) : best ls = None <-> ls = [].
Proof.
  destruct ls as [|[p v] ls]; simpl; split; congruence.
Qed.

Lemma depth_record_inv (src sym : string) (data : pyval) (r : market_data) :
  depth_record src sym data = Ok r ->
  exists bv av bs az,
    getitem data (lit "bids") = Ok bv /\ levels bv = Ok bs /\
    getitem data (lit "asks") = Ok av /\ levels av = Ok az /\
    r = {| source := src; symbol := sym;
           price := mid_price (best bs) (best az);
           bid := best bs; ask := best az;
           order_book := Some {| bids := bs; asks := az |};
           raw_data := data |}.
Proof.
  unfold depth_record. intros H.
  open_bind H. open_bind H. open_bind H. open_bind H.
  injection H as <-. eauto 10.
Qed.

Lemma fetch_bitkub_inv (resp : response) (r : market_data) :
  fetch_bitkub resp = Some r ->
  exists data, resp = Json data /\ depth_record "bitkub" "THB_USDT" data = Ok r.
Proof.
  unfold fetch_bitkub, fetch_bitkub_try, or_none. intros H.
  destruct resp as [| |data]; simpl in H; try discriminate.
  exists data; split; [reflexivity|].
  destruct (and_then _ _) as [[|]|]; simpl in H; try discriminate.
  destruct (depth_record _ _ data); simpl in H; congruence.
Qed.

Lemma fetch_binance_th_inv (resp : response) (r : market_data) :
  fetch_binance_th resp = Some r ->
  exists data, resp = Json data /\ depth_record "binance_th" "USDTTHB" data = Ok r.
Proof.
  unfold fetch_binance_th, fetch_binance_th_try, or_none. intros H.
  destruct resp as [| |data]; simpl in H; try discriminate.
  exists data; split; [reflexivity|].
  destruct (bind (contains _ data) _) as [[|]|]; simpl in H; try discriminate.
  destruct (depth_record _ _ data); simpl in H; congruence.
Qed.

Lemma dict_find_truthy (k : pystr) (items : list (pystr * pyval)) (v : pyval) :
  dict_find k items = Some v -> truthy (PDict items) = true.
Proof. destruct items; simpl; [discriminate | reflexivity]. Qed.

Lemma depth_record_ok (src sym : string) (items : list (pystr * pyval))
  (bv av : pyval) (bs az : list (float * float)) :
  dict_find (lit "bids") items = Some bv -> levels bv = Ok bs ->
  dict_find (lit "asks") items = Some av -> levels av = Ok az ->
  depth_record src sym (PDict items) =
  Ok {| source := src; symbol := sym;
        price := mid_price (best bs) (best az);
        bid := best bs; ask := best az;
        order_book := Some {| bids := bs; asks := az |};
        raw_data := PDict items |}.
Proof.
  intros Hb Hbs Ha Haz. unfold depth_record, getitem.
  rewrite Hb. cbn [bind]. rewrite Hbs. cbn [bind].
  rewrite Ha. cbn [bind]. rewrite Haz. reflexivity.
Qed.

Lemma fetch_bitkub_ok (items : list (pystr * pyval))
  (bv av : pyval) (bs az : list (float * float)) :
  dict_find (lit "bids") items = Some bv -> levels bv = Ok bs ->
  dict_find (lit "asks") items = Some av -> levels av = Ok az ->
  fetch_bitkub (Json (PDict items)) =
  Some {| source := "bitkub"; symbol := "THB_USDT";
          price := mid_price (best bs) (best az);
          bid := best bs; ask := best az;
          order_book := Some {| bids := bs; asks := az |};
          raw_data := PDict items |}.
Proof.
  intros Hb Hbs Ha Haz.
  unfold fetch_bitkub, fetch_bitkub_try, or_none, request_json, contains.
  cbn [bind]. rewrite (dict_find_truthy _ _ Hb), Hb, Ha. cbn [and_then bind].
  rewrite (depth_record_ok _ _ _ Hb Hbs Ha Haz). reflexivity.
Qed.

Lemma fetch_binance_th_ok (items : list (pystr * pyval))
  (bv av : pyval) (bs az : list (float * float)) :
  dict_find (lit "bids") items = Some bv -> levels bv = Ok bs ->
  dict_find (lit "asks") items = Some av -> levels av = Ok az ->
  fetch_binance_th (Json (PDict items)) =
  Some {| source := "binance_th"; symbol := "USDTTHB";
          price := mid_price (best bs) (best az);
          bid := best bs; ask := best az;
          order_book := Some {| bids := bs; asks := az |};
          raw_data := PDict items |}.
Proof.
  intros Hb Hbs Ha Haz.
  unfold fetch_binance_th, fetch_binance_th_try, or_none, request_json, contains.
  cbn [bind]. rewrite Hb, Ha. cbn [and_then bind].
  rewrite (depth_record_ok _ _ _ Hb Hbs Ha Haz). reflexivity.
Qed.

(** Every row of a depth connector is [depth_record] of a JSON payload. *)
Lemma depth_fetch_inv (resp : response) (r : market_data) :
  depth_fetch resp r ->
  exists data src sym, resp = Json data /\ depth_record src sym data = Ok r.
Proof.
  intros [H|H];
    [apply fetch_bitkub_inv in H | apply fetch_binance_th_inv in H];
    destruct H as (data & -> & H); eauto 6.
Qed.

(** C4: when a depth response lists more than five levels on a side, the
    row's order book keeps exactly five on that side, and they are the first
    five of the response, converted level by level. *)
Theorem depth_truncation (items : list (pystr * pyval)) (lb la : list pyval)
  (r : market_data) :
  dict_find (lit "bids") items = Some (PList lb) ->
  dict_find (lit "asks") items = Some (PList la) ->
  (5 < List.length lb)%nat -> (5 < List.length la)%nat ->
  depth_fetch (Json (PDict items)) r ->
  exists ob, order_book r = Some ob /\
    List.length (bids ob) = 5%nat /\ List.length (asks ob) = 5%nat /\
    Forall2 (fun x y => level x = Ok y) (firstn 5 lb) (bids ob) /\
    Forall2 (fun x y => level x = Ok y) (firstn 5 la) (asks ob).
Proof.
  intros Hb Ha Lb La H.
  apply depth_fetch_inv in H as (data & src & sym & E & H).
  injection E as <-.
  apply depth_record_inv in H as (bv & av & bs & az & Gb & Hbs & Ga & Haz & ->).
  unfold getitem in Gb, Ga. rewrite Hb in Gb. rewrite Ha in Ga.
  apply Ok_inj in Gb, Ga. subst bv av.
  rewrite levels_list in Hbs, Haz.
  exists {| bids := bs; asks := az |}. cbn [order_book bids asks].
  split; [reflexivity|].
  rewrite (map_res_length _ _ Hbs), (map_res_length _ _ Haz).
  rewrite !length_firstn.
  repeat split; try lia; now apply map_res_Forall2.
Qed.

Lemma depth_truncation_witness :
  exists r, depth_fetch (Json (PDict Samples.deep_book)) r /\
    exists ob, order_book r = Some ob /\
      List.length (bids ob) = 5%nat /\ List.length (asks ob) = 5%nat /\
      Forall2 (fun x y => level x = Ok y) (firstn 5 Samples.six_bids) (bids ob) /\
      Forall2 (fun x y => level x = Ok y) (firstn 5 Samples.six_asks) (asks ob).
Proof.
  eexists. split.
  - left. vm_compute. reflexivity.
  - eapply (@depth_truncation Samples.deep_book Samples.six_bids Samples.six_asks).
    + reflexivity.
    + reflexivity.
    + simpl; lia.
    + simpl; lia.
    + left. vm_compute. reflexivity.
Defined.

(** C8: a depth response whose asks are the empty sequence, and whose bids
    are a non-empty sequence of levels that convert, still yields a row from
    either depth connector: its price and ask are absent and the asks side of
    its order book is empty, while the bids are kept. *)
Theorem empty_asks_partial_record (items : list (pystr * pyval))
  (lb : list pyval) (bs : list (float * float)) :
  dict_find (lit "bids") items = Some (PList lb) ->
  lb <> [] ->
  map_res level (firstn 5 lb) = Ok bs ->
  dict_find (lit "asks") items = Some (PList []) ->
  (exists r, fetch_bitkub (Json (PDict items)) = Some r /\ asks_missing bs r) /\
  (exists r, fetch_binance_th (Json (PDict items)) = Some r /\ asks_missing bs r).
Proof.
  intros Hb Hne Hbs Ha.
  assert (Hbest : best bs <> None).
  { rewrite best_none. intros ->. apply map_res_length in Hbs.
    destruct lb; [congruence | discriminate]. }
  assert (Hmid : mid_price (best bs) None = PNone).
  { unfold mid_price. simpl. now rewrite andb_false_r. }
  split; eexists; (split;
    [ first [ apply (fetch_bitkub_ok _ Hb Hbs Ha (az := []))
            | apply (fetch_binance_th_ok _ Hb Hbs Ha (az := [])) ];
      reflexivity
    | unfold asks_missing; cbn [price ask bid order_book best]; auto ]).
Qed.

Lemma empty_asks_partial_record_witness :
  (exists r, fetch_bitkub (Json Samples.one_sided_book) = Some r /\
     asks_missing [(Samples.num "31.10", Samples.num "100")] r) /\
  (exists r, fetch_binance_th (Json Samples.one_sided_book) = Some r /\
     asks_missing [(Samples.num "31.10", Samples.num "100")] r).
Proof.
  apply (@empty_asks_partial_record
           [(lit "bids", PList [Samples.pair "31.10" "100"]); (lit "asks", PList [])]
           [Samples.pair "31.10" "100"]
           [(Samples.num "31.10", Samples.num "100")]).
  - reflexivity.
  - discriminate.
  - vm_compute. reflexivity.
  - reflexivity.
Defined.

(** ** Presence of bid and ask *)

Lemma fetch_maxbit_inv (resp : response) (r : market_data) :
  fetch_maxbit resp = Some r ->
  exists data b a,
    resp = Json data /\
    r = {| source := "maxbit"; symbol := "USDT";
           price := PFloat ((b + a) / 2);
           bid := Some b; ask := Some a;
           order_book := None; raw_data := data |}.
Proof.
  unfold fetch_maxbit, fetch_maxbit_try, or_none. intros H.
  destruct resp as [| |data]; simpl in H; try discriminate.
  destruct (get data _) as [code|]; simpl in H; try discriminate.
  destruct (and_then _ _) as [[|]|]; simpl in H; try discriminate.
  destruct (getitem data _) as [result|]; simpl in H; try discriminate.
  destruct (getitem result (lit "bid")) as [b|]; simpl in H; try discriminate.
  destruct (py_float b) as [fb|]; simpl in H; try discriminate.
  destruct (getitem result (lit "ask")) as [a|]; simpl in H; try discriminate.
  destruct (py_float a) as [fa|]; simpl in H; try discriminate.
  injection H as <-. eauto 6.
Qed.

Lemma fetch_fx_inv (resp : response) (r : market_data) :
  fetch_fx resp = Some r ->
  exists data rate,
    resp = Json data /\
    r = {| source := "fx"; symbol := "USD_THB"; price := rate;
           bid := None; ask := None;
           order_book := None; raw_data := data |}.
Proof.
  unfold fetch_fx, fetch_fx_try, or_none. intros H.
  destruct resp as [| |data]; simpl in H; try discriminate.
  destruct (contains _ data) as [hr|]; simpl in H; try discriminate.
  destruct (and_then _ _) as [[|]|]; simpl in H; try discriminate.
  destruct (getitem data _) as [rates|]; simpl in H; try discriminate.
  destruct (getitem rates _) as [rate|]; simpl in H; try discriminate.
  injection H as <-. eauto.
Qed.

(** ** The text extractor *)

Lemma parse_symbol_inv (text : pystr) (acc acc' : list market_data)
  (e : string * pattern) :
  parse_symbol text acc e = Ok acc' ->
  exists rs, acc' = (acc ++ rs)%list /\ symbol_rows text e rs.
Proof.
  destruct e as [sym p]. unfold parse_symbol. intros H.
  destruct (search (bid_marker p) text) as [bg|] eqn:Hb.
  - destruct (search (ask_marker p) text) as [ag|] eqn:Ha.
    + open_bind H. open_bind H. apply Ok_inj in H. subst acc'.
      eexists; split; [reflexivity|].
      eapply rows_one; simpl; eauto.
    + apply Ok_inj in H. subst acc'. exists []. rewrite app_nil_r.
      split; [reflexivity|]. apply rows_none. now right.
  - apply Ok_inj in H. subst acc'. exists []. rewrite app_nil_r.
    split; [reflexivity|]. apply rows_none. now left.
Qed.

(** Whenever [parse_prices] returns, its result is the USDT rows followed by
    the USDC rows. *)
Lemma parse_prices_inv (text : pystr) (rs : list market_data) :
  parse_prices text = Ok rs ->
  exists r1 r2, rs = (r1 ++ r2)%list /\
    symbol_rows text usdt_entry r1 /\ symbol_rows text usdc_entry r2.
Proof.
  unfold parse_prices, patterns. cbn [fold_res]. intros H.
  open_bind H. open_bind H. apply Ok_inj in H. subst rs.
  apply parse_symbol_inv in Ha as (r1 & -> & H1).
  apply parse_symbol_inv in Ha0 as (r2 & -> & H2).
  exists r1, r2. auto.
Qed.

Lemma symbol_rows_shape (text : pystr) (e : string * pattern)
  (rs : list market_data) (r : market_data) :
  symbol_rows text e rs -> In r rs ->
  exists b a, r = text_row text (fst e) b a /\ rs = [r].
Proof.
  intros [H | bg ag b a _ _ _ _] Hin; simpl in Hin; [contradiction|].
  destruct Hin as [<- | []]. eauto.
Qed.

Lemma text_rows_symbol (text : pystr) (e : string * pattern)
  (rs : list market_data) (r : market_data) :
  symbol_rows text e rs -> In r rs -> symbol r = fst e.
Proof.
  intros H Hin. destruct (symbol_rows_shape r H Hin) as (b & a & -> & _).
  reflexivity.
Qed.

(** C10: whenever the extractor returns, every row has source bitazza, no
    order book and the full text as raw data; and when the result holds a
    USDT row and a USDC row, it is exactly the USDT row followed by the USDC
    row. *)
Theorem extractor_rows (text : pystr) (rs : list market_data) :
  parse_prices text = Ok rs ->
  Forall (fun r => source r = "bitazza"%string /\ order_book r = None /\
                   raw_data r = PDict [(lit "full_text", PStr text)]) rs /\
  ((exists r, In r rs /\ symbol r = "USDT"%string) ->
   (exists r, In r rs /\ symbol r = "USDC"%string) ->
   map symbol rs = ["USDT"; "USDC"]%string).
Proof.
  intros H. apply parse_prices_inv in H as (r1 & r2 & -> & H1 & H2). split.
  - apply Forall_forall. intros r Hin. apply in_app_or in Hin.
    destruct Hin as [Hin|Hin];
      [ destruct (symbol_rows_shape r H1 Hin) as (b & a & -> & _)
      | destruct (symbol_rows_shape r H2 Hin) as (b & a & -> & _) ];
      repeat split.
  - intros (x & Hx & Sx) (y & Hy & Sy).
    apply in_app_or in Hx. apply in_app_or in Hy.
    destruct Hx as [Hx|Hx];
      [| rewrite (text_rows_symbol x H2 Hx) in Sx; discriminate].
    destruct Hy as [Hy|Hy];
      [rewrite (text_rows_symbol y H1 Hy) in Sy; discriminate|].
    destruct (symbol_rows_shape x H1 Hx) as (b & a & -> & ->).
    destruct (symbol_rows_shape y H2 Hy) as (b' & a' & -> & ->).
    reflexivity.
Qed.

Lemma extractor_rows_witness :
  Forall (fun r => source r = "bitazza"%string /\ order_book r = None /\
                   raw_data r =
                     PDict [(lit "full_text", PStr Samples.both_symbols_text)])
    [Samples.usdt_row Samples.both_symbols_text;
     Samples.usdc_row Samples.both_symbols_text] /\
  ((exists r,
      In r [Samples.usdt_row Samples.both_symbols_text;
            Samples.usdc_row Samples.both_symbols_text] /\
      symbol r = "USDT"%string) ->
   (exists r,
      In r [Samples.usdt_row Samples.both_symbols_text;
            Samples.usdc_row Samples.both_symbols_text] /\
      symbol r = "USDC"%string) ->
   map symbol [Samples.usdt_row Samples.both_symbols_text;
               Samples.usdc_row Samples.both_symbols_text]
   = ["USDT"; "USDC"]%string).
Proof.
  apply (@extractor_rows Samples.both_symbols_text).
  vm_compute. reflexivity.
Defined.

(** C2: on a message whose bid number ends a sentence the extractor raises
    [ValueError] instead of returning, and the handler lets it through: the
    call stands outside its [try]. *)
Theorem parse_prices_raises_on_full_stop :
  search (bid_marker (snd usdt_entry)) Samples.full_stop_text
    = Some (lit "31.188.") /\
  parse_prices Samples.full_stop_text = Raise ValueError /\
  forall st fails,
    handle_message None
      (Some {| text := Some Samples.full_stop_text; chat_id := 7 |}) fails st
    = Raise ValueError.
Proof.
  split; [vm_compute; reflexivity|].
  split; [vm_compute; reflexivity|].
  intros st fails. vm_compute. reflexivity.
Qed.

(** C6: both USDT markers are found and both USDT numbers are sound, yet no
    USDT row comes out: the malformed USDC number makes the whole call
    raise. *)
Theorem sound_symbol_lost_to_malformed_neighbour :
  search (bid_marker (snd usdt_entry)) Samples.second_point_text
    = Some (lit "31.188") /\
  search (ask_marker (snd usdt_entry)) Samples.second_point_text
    = Some (lit "31.245") /\
  search (bid_marker (snd usdc_entry)) Samples.second_point_text
    = Some (lit "31.1.5") /\
  parse_prices Samples.second_point_text = Raise ValueError.
Proof.
  repeat split; vm_compute; reflexivity.
Qed.

(** ** Bid, ask and price across the pipeline *)

(** C3, as the code has it: a row without an order book (OTC desk, FX,
    broadcast text) carries both bid and ask or neither, and an FX row
    neither; in a depth row the bid is present exactly when the bids side of
    its order book is non-empty and the ask exactly when the asks side is, so
    that one may be present without the other. *)
Theorem bid_ask_presence (r : market_data) :
  emits r ->
  match order_book r with
  | Some ob =>
      (bid r = None <-> bids ob = []) /\ (ask r = None <-> asks ob = [])
  | None =>
      (bid r = None <-> ask r = None) /\
      (source r = "fx"%string -> bid r = None /\ ask r = None)
  end.
Proof.
  intros [resp r' H | resp r' H | resp r' H | resp r' H | text rs r' H Hin].
  - apply fetch_bitkub_inv in H as (data & _ & H).
    apply depth_record_inv in H as (bv & av & bs & az & _ & _ & _ & _ & ->).
    cbn [order_book bid ask bids asks]. split; apply best_none.
  - apply fetch_binance_th_inv in H as (data & _ & H).
    apply depth_record_inv in H as (bv & av & bs & az & _ & _ & _ & _ & ->).
    cbn [order_book bid ask bids asks]. split; apply best_none.
  - apply fetch_maxbit_inv in H as (data & b & a & _ & ->).
    cbn. repeat split; discriminate.
  - apply fetch_fx_inv in H as (data & rate & _ & ->).
    cbn. repeat split; reflexivity.
  - apply parse_prices_inv in H as (r1 & r2 & -> & H1 & H2).
    apply in_app_or in Hin.
    destruct Hin as [Hin|Hin];
      [ destruct (symbol_rows_shape r' H1 Hin) as (b & a & -> & _)
      | destruct (symbol_rows_shape r' H2 Hin) as (b & a & -> & _) ];
      cbn; repeat split; discriminate.
Qed.

Lemma bid_ask_presence_witness :
  (bid (Samples.usdt_row Samples.both_symbols_text) = None <->
   ask (Samples.usdt_row Samples.both_symbols_text) = None) /\
  (source (Samples.usdt_row Samples.both_symbols_text) = "fx"%string ->
   bid (Samples.usdt_row Samples.both_symbols_text) = None /\
   ask (Samples.usdt_row Samples.both_symbols_text) = None).
Proof.
  apply (@bid_ask_presence (Samples.usdt_row Samples.both_symbols_text)).
  apply (@emits_text Samples.both_symbols_text
           [Samples.usdt_row Samples.both_symbols_text;
            Samples.usdc_row Samples.both_symbols_text]).
  - vm_compute. reflexivity.
  - left. reflexivity.
Defined.

(** C3 as stated fails: the depth row of a book with bids and no asks has a
    bid and no ask. *)
Lemma bid_without_ask :
  ~ (forall r, emits r -> (bid r = None <-> ask r = None)).
Proof.
  intros H.
  destruct (fetch_bitkub (Json Samples.one_sided_book)) as [r|] eqn:E;
    [|vm_compute in E; discriminate].
  specialize (H r (emits_bitkub _ E)).
  vm_compute in E. injection E as <-. cbn in H.
  destruct H as [_ H]. specialize (H eq_refl). discriminate.
Qed.

(** C1: a depth response whose best bid is 0.0 yields, from either depth
    connector, a row with both bid and ask set and no price: the test
    [best_bid and best_ask] takes the float zero for an absent bid. *)
Theorem zero_bid_row_has_no_price :
  (exists r, fetch_bitkub (Json Samples.zero_bid_book) = Some r /\
     bid r = Some 0%float /\ ask r = Some (Samples.num "31.30") /\
     price r = PNone) /\
  (exists r, fetch_binance_th (Json Samples.zero_bid_book) = Some r /\
     bid r = Some 0%float /\ ask r = Some (Samples.num "31.30") /\
     price r = PNone).
Proof.
  split; eexists; (split; [vm_compute; reflexivity|]); repeat split.
Qed.

(** ** The OTC desk *)

Lemma eq_str_true (v : pyval) (k : pystr) : eq_str v k = true -> v = PStr k.
Proof.
  destruct v; simpl; try discriminate. intros H.
  apply str_eqb_eq in H. now subst.
Qed.

(** C5: a desk response whose status code is not the string "000", or which
    has no result field, makes [fetch_maxbit] return nothing; so does a
    failed request. What is raised on the way stays inside the connector. *)
Theorem otc_rejection (resp : response) :
  response_code resp <> Some (PStr (lit "000")) \/ response_result resp = None ->
  fetch_maxbit resp = None.
Proof.
  intros H. unfold fetch_maxbit, fetch_maxbit_try, or_none.
  destruct resp as [| |data]; try reflexivity.
  destruct data; try reflexivity.
  cbn [request_json bind get response_code response_result] in *.
  destruct (dict_find (lit "responseCode") items) as [code|] eqn:Hc;
    cbn [bind]; [|reflexivity].
  destruct (eq_str code (lit "000")) eqn:He; cbn [and_then bind];
    [|reflexivity].
  apply eq_str_true in He. subst code.
  destruct H as [H|H]; [congruence|].
  unfold contains. rewrite H. reflexivity.
Qed.

Lemma otc_rejection_witness : fetch_maxbit (Json Samples.rejected_otc) = None.
Proof.
  apply otc_rejection. left. vm_compute. discriminate.
Defined.

(** ** The scheduler *)

Lemma positive_not_negative (x : float) :
  (0 <? x)%float = true -> (x <? 0)%float = false.
Proof.
  rewrite !ltb_spec. unfold SFltb.
  change (Prim2SF 0) with (S754_zero false).
  destruct (Prim2SF x) as [s|s| |s m e]; simpl; try discriminate;
    destruct s; simpl; congruence.
Qed.

(** C7: with the interval of 1, a tick that took 0.3 sleeps 0.7 and a tick
    that took 1.4 sleeps 0; in general the sleep is [1 - elapsed] when that is
    positive and 0 otherwise, it is never negative, and it is what a tick
    computes from its two clock readings. *)
Theorem scheduler_sleep :
  sleep_time (Samples.num "0.3") = PFloat (Samples.num "0.7") /\
  sleep_time (Samples.num "1.4") = PInt 0 /\
  (forall elapsed,
     sleep_time elapsed =
       if (0 <? INTERVAL_SECONDS - elapsed)%float
       then PFloat (INTERVAL_SECONDS - elapsed) else PInt 0) /\
  (forall elapsed, negative (sleep_time elapsed) = false) /\
  (forall env st,
     snd (tick env st) = sleep_time (end_time env - start_time env)).
Proof.
  split; [vm_compute; reflexivity|].
  split; [vm_compute; reflexivity|].
  split; [reflexivity|].
  split; [|reflexivity].
  intros elapsed. unfold sleep_time, max0.
  destruct (0 <? INTERVAL_SECONDS - elapsed)%float eqn:E; simpl.
  - now apply positive_not_negative.
  - reflexivity.
Qed.

(** ** The polling loop *)

Lemma fetch_bitkub_source (resp : response) (r : market_data) :
  fetch_bitkub resp = Some r -> source r = "bitkub"%string.
Proof.
  intros H. apply fetch_bitkub_inv in H as (data & _ & H).
  apply depth_record_inv in H as (bv & av & bs & az & _ & _ & _ & _ & ->).
  reflexivity.
Qed.

Lemma fetch_binance_th_source (resp : response) (r : market_data) :
  fetch_binance_th resp = Some r -> source r = "binance_th"%string.
Proof.
  intros H. apply fetch_binance_th_inv in H as (data & _ & H).
  apply depth_record_inv in H as (bv & av & bs & az & _ & _ & _ & _ & ->).
  reflexivity.
Qed.

Lemma fetch_maxbit_source (resp : response) (r : market_data) :
  fetch_maxbit resp = Some r -> source r = "maxbit"%string.
Proof.
  intros H. apply fetch_maxbit_inv in H as (data & b & a & _ & ->).
  reflexivity.
Qed.

Lemma fetch_fx_source (resp : response) (r : market_data) :
  fetch_fx resp = Some r -> source r = "fx"%string.
Proof.
  intros H. apply fetch_fx_inv in H as (data & rate & _ & ->).
  reflexivity.
Qed.

Ltac source_cases :=
  repeat match goal with
  | H : fetch_bitkub _ = Some _ |- _ => apply fetch_bitkub_source in H
  | H : fetch_binance_th _ = Some _ |- _ => apply fetch_binance_th_source in H
  | H : fetch_maxbit _ = Some _ |- _ => apply fetch_maxbit_source in H
  | H : fetch_fx _ = Some _ |- _ => apply fetch_fx_source in H
  end.

Lemma collect_batch (env : tick_env) :
  (List.length (collect env) <= 4)%nat /\
  NoDup (map source (collect env)) /\
  incl (map source (collect env)) polled_sources.
Proof.
  unfold collect, polled_sources.
  destruct (fetch_bitkub _) as [bk|] eqn:Ebk;
  destruct (fetch_binance_th _) as [bn|] eqn:Ebn;
  destruct (fetch_maxbit _) as [mb|] eqn:Emb;
  destruct (fetch_fx _) as [fx|] eqn:Efx;
  source_cases; cbn [append_if app map List.length];
  repeat match goal with H : source _ = _ |- _ => rewrite H; clear H end;
  (split; [lia|]);
  (split; [ repeat constructor; simpl; intuition discriminate
          | intros x Hx; simpl in *; intuition ]).
Qed.

(** C9: the rows a tick collects are at most four, from pairwise different
    sources among bitkub, binance_th, maxbit and fx; the tick calls the
    store's insert once with them when there is at least one and not at all
    when there is none; hence every batch the loop ever hands over is
    non-empty and within these bounds. *)
Theorem polling_batch :
  (forall env st,
     (List.length (collect env) <= 4)%nat /\
     NoDup (map source (collect env)) /\
     incl (map source (collect env)) polled_sources /\
     attempts (fst (tick env st)) = (attempts st ++ written (collect env))%list) /\
  (forall envs,
     Forall batch_ok (attempts (run envs {| attempts := []; rows := [] |}))).
Proof.
  assert (Htick : forall env st,
    attempts (fst (tick env st)) = (attempts st ++ written (collect env))%list).
  { intros env st. unfold tick. cbn [fst].
    destruct (collect env); cbn [written insert attempts];
      [now rewrite app_nil_r | reflexivity]. }
  split.
  - intros env st. destruct (collect_batch env) as (L & N & I). auto.
  - intros envs.
    assert (G : forall st, Forall batch_ok (attempts st) ->
                           Forall batch_ok (attempts (run envs st))).
    { induction envs as [|env envs IH]; intros st Hst; [exact Hst|].
      unfold run in *. cbn [fold_left]. apply IH. rewrite Htick.
      apply Forall_app. split; [exact Hst|].
      destruct (collect env) as [|r b] eqn:E; cbn [written]; constructor;
        [|constructor].
      destruct (collect_batch env) as (L & N & I). rewrite E in *.
      repeat split; auto. discriminate. }
    apply G. constructor.
Qed.

(** ** Further properties of the extractor and of the rows *)

Lemma patterns_entries (e : string * pattern) :
  In e patterns -> e = usdt_entry \/ e = usdc_entry.
Proof.
  unfold patterns. cbn [In]. intros [<-|[<-|[]]]; [left|right]; reflexivity.
Qed.

Lemma symbol_rows_found (text : pystr) (e : string * pattern)
  (rs : list market_data) :
  symbol_rows text e rs ->
  (rs <> [] <-> search (bid_marker (snd e)) text <> None /\
                search (ask_marker (snd e)) text <> None).
Proof.
  intros [[H|H] | bg ag b a Hb Ha _ _]; split;
    try (intros Hne; now contradiction Hne);
    try (intros [Hb' Ha']; congruence);
    try discriminate.
  intros _. rewrite Hb, Ha. split; discriminate.
Qed.

(** X1: whenever the extractor returns, its result holds a row of a tracked
    symbol exactly when both patterns of that symbol match the text. *)
Theorem extractor_iff (text : pystr) (rs : list market_data)
  (e : string * pattern) :
  parse_prices text = Ok rs -> In e patterns ->
  ((exists r, In r rs /\ symbol r = fst e) <->
   search (bid_marker (snd e)) text <> None /\
   search (ask_marker (snd e)) text <> None).
Proof.
  intros H He. apply parse_prices_inv in H as (r1 & r2 & -> & H1 & H2).
  apply patterns_entries in He as [-> | ->].
  - rewrite <- (symbol_rows_found H1). split.
    + intros (r & Hin & Hs). apply in_app_or in Hin as [Hin|Hin].
      * intros ->. contradiction.
      * rewrite (text_rows_symbol r H2 Hin) in Hs. discriminate.
    + intros Hne. destruct r1 as [|r r1]; [congruence|].
      exists r. split; [now left|].
      apply (text_rows_symbol r H1). now left.
  - rewrite <- (symbol_rows_found H2). split.
    + intros (r & Hin & Hs). apply in_app_or in Hin as [Hin|Hin].
      * rewrite (text_rows_symbol r H1 Hin) in Hs. discriminate.
      * intros ->. contradiction.
    + intros Hne. destruct r2 as [|r r2]; [congruence|].
      exists r. split; [apply in_or_app; right; now left|].
      apply (text_rows_symbol r H2). now left.
Qed.

Lemma extractor_iff_witness :
  (exists r, In r [Samples.usdt_row Samples.usdt_only_text] /\
             symbol r = fst usdc_entry) <->
  search (bid_marker (snd usdc_entry)) Samples.usdt_only_text <> None /\
  search (ask_marker (snd usdc_entry)) Samples.usdt_only_text <> None.
Proof.
  apply (@extractor_iff Samples.usdt_only_text).
  - vm_compute. reflexivity.
  - right. left. reflexivity.
Defined.

Lemma symbol_rows_length (text : pystr) (e : string * pattern)
  (rs : list market_data) :
  symbol_rows text e rs -> (List.length rs <= 1)%nat.
Proof. intros [H | bg ag b a _ _ _ _]; simpl; lia. Qed.

(** X2: whenever the extractor returns, it returns at most one row per
    tracked symbol, two in all. *)
Theorem extractor_at_most_two (text : pystr) (rs : list market_data) :
  parse_prices text = Ok rs -> (List.length rs <= 2)%nat.
Proof.
  intros H. apply parse_prices_inv in H as (r1 & r2 & -> & H1 & H2).
  apply symbol_rows_length in H1, H2. rewrite length_app. lia.
Qed.

Lemma extractor_at_most_two_witness :
  (List.length [Samples.usdt_row Samples.both_symbols_text;
                Samples.usdc_row Samples.both_symbols_text] <= 2)%nat.
Proof.
  apply (@extractor_at_most_two Samples.both_symbols_text).
  vm_compute. reflexivity.
Defined.

(** X3: a text in which both USDT patterns match numbers that convert, and
    in which a USDC pattern does not match, yields exactly one row, the USDT
    one, priced at the midpoint. *)
Theorem usdt_only_yields_one (text bg ag : pystr) (b a : float) :
  search (bid_marker (snd usdt_entry)) text = Some bg ->
  search (ask_marker (snd usdt_entry)) text = Some ag ->
  py_float (PStr bg) = Ok b ->
  py_float (PStr ag) = Ok a ->
  search (bid_marker (snd usdc_entry)) text = None \/
  search (ask_marker (snd usdc_entry)) text = None ->
  parse_prices text = Ok [text_row text "USDT" b a].
Proof.
  intros Hb Ha Fb Fa Hc.
  unfold parse_prices, patterns. cbn [fold_res parse_symbol].
  change (search (bid_marker (snd usdt_entry)) text = Some bg) in Hb.
  cbn [usdt_entry usdc_entry patterns nth snd] in Hb, Ha, Hc.
  rewrite Hb, Ha, Fb. cbn [bind]. rewrite Fa. cbn [bind app].
  destruct Hc as [Hc|Hc]; rewrite Hc; [reflexivity|].
  match goal with
  | |- bind (match ?x with _ => _ end) _ = _ => destruct x; reflexivity
  end.
Qed.

Lemma usdt_only_yields_one_witness :
  parse_prices Samples.usdt_only_text =
  Ok [text_row Samples.usdt_only_text "USDT"
        (Samples.num "31.188") (Samples.num "31.245")] /\
  price (text_row Samples.usdt_only_text "USDT"
           (Samples.num "31.188") (Samples.num "31.245"))
  = PFloat (Samples.num "31.2165").
Proof.
  split.
  - apply (@usdt_only_yields_one Samples.usdt_only_text
             (lit "31.188") (lit "31.245")).
    + vm_compute. reflexivity.
    + vm_compute. reflexivity.
    + vm_compute. reflexivity.
    + vm_compute. reflexivity.
    + left. vm_compute. reflexivity.
  - vm_compute. reflexivity.
Defined.

Lemma mid_price_some (b a : float) :
  mid_price (Some b) (Some a) =
  if (b =? 0)%float || (a =? 0)%float then PNone else PFloat ((b + a) / 2).
Proof.
  unfold mid_price. cbn [of_opt truthy].
  destruct (b =? 0)%float, (a =? 0)%float; reflexivity.
Qed.

(** X4: the price of a row that carries both a bid and an ask is the float
    [(bid + ask) / 2], except in a depth row whose bid or ask equals zero,
    where it is absent. *)
Theorem midpoint_unless_zero (r : market_data) (b a : float) :
  emits r -> bid r = Some b -> ask r = Some a ->
  price r =
    match order_book r with
    | Some _ =>
        if (b =? 0)%float || (a =? 0)%float then PNone
        else PFloat ((b + a) / 2)
    | None => PFloat ((b + a) / 2)
    end.
Proof.
  intros [resp r' H | resp r' H | resp r' H | resp r' H | text rs r' H Hin]
         Hb Ha.
  - apply fetch_bitkub_inv in H as (data & _ & H).
    apply depth_record_inv in H as (bv & av & bs & az & _ & _ & _ & _ & ->).
    cbn [bid ask price order_book] in *. rewrite Hb, Ha.
    apply mid_price_some.
  - apply fetch_binance_th_inv in H as (data & _ & H).
    apply depth_record_inv in H as (bv & av & bs & az & _ & _ & _ & _ & ->).
    cbn [bid ask price order_book] in *. rewrite Hb, Ha.
    apply mid_price_some.
  - apply fetch_maxbit_inv in H as (data & b' & a' & _ & ->).
    cbn in *. congruence.
  - apply fetch_fx_inv in H as (data & rate & _ & ->). discriminate.
  - apply parse_prices_inv in H as (r1 & r2 & -> & H1 & H2).
    apply in_app_or in Hin.
    destruct Hin as [Hin|Hin];
      [ destruct (symbol_rows_shape r' H1 Hin) as (b' & a' & -> & _)
      | destruct (symbol_rows_shape r' H2 Hin) as (b' & a' & -> & _) ];
      cbn in *; congruence.
Qed.

Lemma midpoint_unless_zero_witness :
  price (Samples.usdt_row Samples.usdt_only_text) =
  PFloat ((Samples.num "31.188" + Samples.num "31.245") / 2).
Proof.
  apply (@midpoint_unless_zero (Samples.usdt_row Samples.usdt_only_text)).
  - apply (@emits_text Samples.usdt_only_text
             [Samples.usdt_row Samples.usdt_only_text]).
    + vm_compute. reflexivity.
    + left. reflexivity.
  - reflexivity.
  - reflexivity.
Defined.

(** X5: the order book of a row never holds more than five levels on a
    side. *)
Theorem order_book_at_most_five (r : market_data) (ob : order_book_t) :
  emits r -> order_book r = Some ob ->
  (List.length (bids ob) <= 5)%nat /\ (List.length (asks ob) <= 5)%nat.
Proof.
  intros [resp r' H | resp r' H | resp r' H | resp r' H | text rs r' H Hin] Ho.
  - apply fetch_bitkub_inv in H as (data & _ & H).
    apply depth_record_inv in H as (bv & av & bs & az & _ & Lb & _ & La & ->).
    injection Ho as <-. cbn [bids asks].
    split; eapply levels_length; eauto.
  - apply fetch_binance_th_inv in H as (data & _ & H).
    apply depth_record_inv in H as (bv & av & bs & az & _ & Lb & _ & La & ->).
    injection Ho as <-. cbn [bids asks].
    split; eapply levels_length; eauto.
  - apply fetch_maxbit_inv in H as (data & b & a & _ & ->). discriminate.
  - apply fetch_fx_inv in H as (data & rate & _ & ->). discriminate.
  - apply parse_prices_inv in H as (r1 & r2 & -> & H1 & H2).
    apply in_app_or in Hin.
    destruct Hin as [Hin|Hin];
      [ destruct (symbol_rows_shape r' H1 Hin) as (b & a & -> & _)
      | destruct (symbol_rows_shape r' H2 Hin) as (b & a & -> & _) ];
      discriminate.
Qed.

Lemma order_book_at_most_five_witness :
  exists r ob,
    fetch_bitkub (Json (PDict Samples.deep_book)) = Some r /\
    order_book r = Some ob /\
    (List.length (bids ob) <= 5)%nat /\ (List.length (asks ob) <= 5)%nat.
Proof.
  eexists. eexists.
  split; [vm_compute; reflexivity|].
  split; [reflexivity|].
  eapply order_book_at_most_five.
  - eapply (@emits_bitkub (Json (PDict Samples.deep_book))).
    vm_compute. reflexivity.
  - reflexivity.
Defined.

Lemma parse_symbol_returns (text : pystr) (acc : list market_data)
  (e : string * pattern) :
  (forall g,
     search (bid_marker (snd e)) text = Some g \/
     search (ask_marker (snd e)) text = Some g ->
     exists f, py_float (PStr g) = Ok f) ->
  exists acc', parse_symbol text acc e = Ok acc'.
Proof.
  destruct e as [sym p]. cbn [snd]. intros H. unfold parse_symbol.
  destruct (search (bid_marker p) text) as [bg|] eqn:Hb; [|eauto].
  destruct (search (ask_marker p) text) as [ag|] eqn:Ha; [|eauto].
  destruct (H bg (or_introl eq_refl)) as (b & ->).
  destruct (H ag (or_intror eq_refl)) as (a & ->).
  cbn [bind]. eauto.
Qed.

(** X6: the extractor returns whenever [float()] accepts every number its
    patterns match. *)
Theorem extractor_returns (text : pystr) :
  (forall e g, In e patterns ->
     search (bid_marker (snd e)) text = Some g \/
     search (ask_marker (snd e)) text = Some g ->
     exists f, py_float (PStr g) = Ok f) ->
  exists rs, parse_prices text = Ok rs.
Proof.
  intros H. unfold parse_prices, patterns. cbn [fold_res].
  destruct (@parse_symbol_returns text [] usdt_entry) as (r1 & E1).
  { intros g. apply H. left. reflexivity. }
  destruct (@parse_symbol_returns text r1 usdc_entry) as (r2 & E2).
  { intros g. apply H. right. left. reflexivity. }
  exists r2. unfold usdt_entry, usdc_entry, patterns in E1, E2.
  cbn [nth] in E1, E2. rewrite E1. cbn [bind]. rewrite E2. reflexivity.
Qed.

Lemma extractor_returns_witness :
  exists rs, parse_prices Samples.usdt_only_text = Ok rs.
Proof.
  apply extractor_returns.
  intros e g He Hg. apply patterns_entries in He.
  destruct He as [-> | ->]; destruct Hg as [Hg|Hg];
    vm_compute in Hg; try discriminate;
    injection Hg as <-; eexists; vm_compute; reflexivity.
Defined.

(** ** The connectors, exactly *)

Import DebugBridge.

Lemma contains_dict_true (k : pystr) (v : pyval) :
  contains k v = Ok true ->
  (exists x, getitem v k = Ok x) \/ (forall x, getitem v k <> Ok x).
Proof.
  destruct v; simpl; try discriminate; intros H.
  - right. intros x. discriminate.
  - right. intros x. discriminate.
  - left. destruct (dict_find k items); [eauto | discriminate].
Qed.

(** X7: [fetch_fx] yields a row exactly when the payload is a JSON object
    whose [rates] is an object with a [THB] entry; the row's price is that
    entry as it came, whatever its type, and bid, ask and order book are
    absent. *)
Theorem fetch_fx_exactly (resp : response) (r : market_data) :
  fetch_fx resp = Some r <->
  exists items rates rate,
    resp = Json (PDict items) /\
    dict_find (lit "rates") items = Some (PDict rates) /\
    dict_find (lit "THB") rates = Some rate /\
    r = {| source := "fx"; symbol := "USD_THB"; price := rate;
           bid := None; ask := None; order_book := None;
           raw_data := PDict items |}.
Proof.
  split.
  - intros H. unfold fetch_fx, fetch_fx_try, or_none in H.
    destruct resp as [| |data]; simpl in H; try discriminate.
    destruct (contains _ data) as [hr|] eqn:Hc; simpl in H; try discriminate.
    destruct (and_then _ _) as [[|]|] eqn:Ha; simpl in H; try discriminate.
    destruct (getitem data _) as [rates|] eqn:Hr; simpl in H; try discriminate.
    destruct (getitem rates _) as [rate|] eqn:Ht; simpl in H; try discriminate.
    injection H as <-.
    destruct data; simpl in Hr; try discriminate.
    destruct (dict_find (lit "rates") items) as [x|] eqn:Fx;
      try discriminate. apply Ok_inj in Hr. subst x.
    destruct rates as [| | | | | |rates]; simpl in Ht; try discriminate.
    destruct (dict_find (lit "THB") rates) as [y|] eqn:Fy;
      try discriminate. apply Ok_inj in Ht. subst y.
    exists items, rates, rate. auto.
  - intros (items & rates & rate & -> & Hr & Ht & ->).
    unfold fetch_fx, fetch_fx_try, or_none, request_json, contains, getitem.
    cbn [bind]. rewrite Hr. cbn [and_then bind]. rewrite Ht. reflexivity.
Qed.

(** X8: [fetch_maxbit] yields a row exactly when the payload is a JSON object
    whose [responseCode] is the string "000" and whose [result] is an object
    with a [bid] and an [ask] that [float()] accepts; the row carries both
    and their midpoint, and no order book. *)
Theorem fetch_maxbit_exactly (resp : response) (r : market_data) :
  fetch_maxbit resp = Some r <->
  exists items result b a fb fa,
    resp = Json (PDict items) /\
    dict_find (lit "responseCode") items = Some (PStr (lit "000")) /\
    dict_find (lit "result") items = Some (PDict result) /\
    dict_find (lit "bid") result = Some b /\ py_float b = Ok fb /\
    dict_find (lit "ask") result = Some a /\ py_float a = Ok fa /\
    r = {| source := "maxbit"; symbol := "USDT";
           price := PFloat ((fb + fa) / 2);
           bid := Some fb; ask := Some fa; order_book := None;
           raw_data := PDict items |}.
Proof.
  split.
  - intros H. unfold fetch_maxbit, fetch_maxbit_try, or_none in H.
    destruct resp as [| |data]; simpl in H; try discriminate.
    destruct data as [| | | | | |items]; simpl in H; try discriminate.
    destruct (dict_find (lit "responseCode") items) as [code|] eqn:Hc;
      simpl in H; try discriminate.
    destruct (eq_str code (lit "000")) eqn:He; simpl in H; try discriminate.
    apply eq_str_true in He. subst code.
    destruct (dict_find (lit "result") items) as [result|] eqn:Hr;
      simpl in H; try discriminate.
    destruct result as [| | | | | |result]; simpl in H; try discriminate.
    destruct (dict_find (lit "bid") result) as [b|] eqn:Hb;
      simpl in H; try discriminate.
    destruct (py_float b) as [fb|] eqn:Fb; simpl in H; try discriminate.
    destruct (dict_find (lit "ask") result) as [a|] eqn:Ha;
      simpl in H; try discriminate.
    destruct (py_float a) as [fa|] eqn:Fa; simpl in H; try discriminate.
    injection H as <-. exists items, result, b, a, fb, fa. auto 10.
  - intros (items & result & b & a & fb & fa
            & -> & Hc & Hr & Hb & Fb & Ha & Fa & ->).
    unfold fetch_maxbit, fetch_maxbit_try, or_none, request_json, get,
      contains, getitem.
    cbn [bind]. rewrite Hc. cbn [bind eq_str].
    replace (str_eqb (lit "000") (lit "000")) with true by reflexivity.
    cbn [and_then]. rewrite Hr. cbn [bind]. rewrite Hb. cbn [bind].
    rewrite Fb. cbn [bind]. rewrite Ha. cbn [bind]. rewrite Fa. reflexivity.
Qed.

Lemma depth_record_relabel (s1 y1 s2 y2 : string) (data : pyval) :
  depth_record s2 y2 data =
  match depth_record s1 y1 data with
  | Ok r => Ok (relabel s2 y2 r)
  | Raise e => Raise e
  end.
Proof.
  unfold depth_record.
  destruct (getitem data (lit "bids")) as [bv|]; cbn [bind]; [|reflexivity].
  destruct (levels bv) as [bs|]; cbn [bind]; [|reflexivity].
  destruct (getitem data (lit "asks")) as [av|]; cbn [bind]; [|reflexivity].
  destruct (levels av) as [az|]; cbn [bind]; reflexivity.
Qed.

Lemma relabel_relabel (s1 y1 s2 y2 : string) (r : market_data) :
  relabel s2 y2 (relabel s1 y1 r) = relabel s2 y2 r.
Proof. reflexivity. Qed.

(** X9: on every response the two depth connectors compute the same row up
    to source and symbol, although only [fetch_bitkub] tests the payload for
    emptiness before it looks for the keys: each is the other's result
    relabelled, and so one yields a row exactly when the other does. *)
Theorem depth_connectors_agree (resp : response) :
  fetch_binance_th resp =
    option_map (relabel "binance_th" "USDTTHB") (fetch_bitkub resp) /\
  fetch_bitkub resp =
    option_map (relabel "bitkub" "THB_USDT") (fetch_binance_th resp).
Proof.
  assert (E : fetch_binance_th resp =
              option_map (relabel "binance_th" "USDTTHB") (fetch_bitkub resp)).
  { unfold fetch_binance_th, fetch_binance_th_try, fetch_bitkub,
      fetch_bitkub_try, or_none.
    destruct resp as [| |data]; cbn [request_json bind]; try reflexivity.
    rewrite (depth_record_relabel "bitkub" "THB_USDT" "binance_th" "USDTTHB").
    destruct (truthy data) eqn:T; cbn [and_then].
    - destruct (bind (contains (lit "bids") data) _) as [[|]|]; cbn [bind];
        try reflexivity.
      destruct (depth_record "bitkub" "THB_USDT" data); reflexivity.
    - destruct data as [| | | |s|l|items]; try reflexivity.
      + destruct s; [reflexivity | discriminate].
      + destruct l; [reflexivity | discriminate].
      + destruct items; [reflexivity | discriminate]. }
  split; [exact E|]. rewrite E.
  destruct (fetch_bitkub resp) as [r|] eqn:F; [|reflexivity].
  cbn [option_map]. rewrite relabel_relabel.
  apply fetch_bitkub_inv in F as (data & _ & F).
  apply depth_record_inv in F as (bv & av & bs & az & _ & _ & _ & _ & ->).
  reflexivity.
Qed.

Lemma map_res_In {A B} (f : A -> res B) (l : list A) (ys : list B) (x : A) :
  map_res f l = Ok ys -> In x l -> exists y, f x = Ok y.
Proof.
  intros H Hin. apply map_res_Forall2 in H.
  induction H as [|x' y' l' ys' Hxy _ IH]; simpl in Hin; [contradiction|].
  destruct Hin as [<-|Hin]; eauto.
Qed.

Lemma malformed_level_no_record (items : list (pystr * pyval))
  (side : pystr) (l : list pyval) (x : pyval) (e : exn)
  (src sym : string) (r : market_data) :
  side = lit "bids" \/ side = lit "asks" ->
  dict_find side items = Some (PList l) ->
  In x (firstn 5 l) ->
  level x = Raise e ->
  depth_record src sym (PDict items) <> Ok r.
Proof.
  intros Hs Hf Hin Hx E.
  apply depth_record_inv in E as (bv & av & bs & az & Gb & Lb & Ga & La & _).
  unfold getitem in Gb, Ga.
  destruct Hs as [-> | ->].
  - rewrite Hf in Gb. apply Ok_inj in Gb. subst bv.
    rewrite levels_list in Lb.
    destruct (map_res_In _ _ x Lb Hin) as (y & Hy). congruence.
  - rewrite Hf in Ga. apply Ok_inj in Ga. subst av.
    rewrite levels_list in La.
    destruct (map_res_In _ _ x La Hin) as (y & Hy). congruence.
Qed.

(** X10: when one of the first five levels of a side is malformed (not a
    pair, or with a component [float()] refuses), neither depth connector
    yields a row, however sound the rest of the book is. *)
Theorem malformed_level_fails_fetch (items : list (pystr * pyval))
  (side : pystr) (l : list pyval) (x : pyval) (e : exn) :
  side = lit "bids" \/ side = lit "asks" ->
  dict_find side items = Some (PList l) ->
  In x (firstn 5 l) ->
  level x = Raise e ->
  fetch_bitkub (Json (PDict items)) = None /\
  fetch_binance_th (Json (PDict items)) = None.
Proof.
  intros Hs Hf Hin Hx. split.
  - destruct (fetch_bitkub (Json (PDict items))) as [r|] eqn:E;
      [exfalso | reflexivity].
    apply fetch_bitkub_inv in E as (data & Ed & E). injection Ed as <-.
    eapply (@malformed_level_no_record items side l x e); eassumption.
  - destruct (fetch_binance_th (Json (PDict items))) as [r|] eqn:E;
      [exfalso | reflexivity].
    apply fetch_binance_th_inv in E as (data & Ed & E). injection Ed as <-.
    eapply (@malformed_level_no_record items side l x e); eassumption.
Qed.

Lemma malformed_level_fails_fetch_witness :
  fetch_bitkub (Json (PDict Samples.broken_level_book)) = None /\
  fetch_binance_th (Json (PDict Samples.broken_level_book)) = None.
Proof.
  apply (@malformed_level_fails_fetch Samples.broken_level_book (lit "bids")
           [Samples.pair "31.10" "100";
            PList [Samples.str "n/a"; Samples.str "20"]]
           (PList [Samples.str "n/a"; Samples.str "20"]) ValueError).
  - left. reflexivity.
  - reflexivity.
  - right. left. reflexivity.
  - vm_compute. reflexivity.
Defined.

Lemma fetch_fx_exactly_witness :
  fetch_fx (Json (PDict Samples.fx_table)) =
  Some {| source := "fx"; symbol := "USD_THB";
          price := PFloat (Samples.num "35.5");
          bid := None; ask := None; order_book := None;
          raw_data := PDict Samples.fx_table |}.
Proof.
  apply fetch_fx_exactly.
  exists Samples.fx_table, [(lit "THB", PFloat (Samples.num "35.5"))],
    (PFloat (Samples.num "35.5")).
  repeat split.
Defined.

Lemma fetch_maxbit_exactly_witness :
  fetch_maxbit (Json (PDict Samples.accepted_otc)) =
  Some {| source := "maxbit"; symbol := "USDT";
          price := PFloat ((Samples.num "31.15" + Samples.num "31.25") / 2);
          bid := Some (Samples.num "31.15"); ask := Some (Samples.num "31.25");
          order_book := None;
          raw_data := PDict Samples.accepted_otc |}.
Proof.
  apply fetch_maxbit_exactly.
  exists Samples.accepted_otc,
    [(lit "bid", Samples.str "31.15"); (lit "ask", Samples.str "31.25")],
    (Samples.str "31.15"), (Samples.str "31.25"),
    (Samples.num "31.15"), (Samples.num "31.25").
  repeat split; vm_compute; reflexivity.
Defined.

(** ** The loop over many ticks *)

Lemma tick_store (env : tick_env) (st : store) :
  attempts (fst (tick env st)) = (attempts st ++ written (collect env))%list /\
  rows (fst (tick env st)) =
    (rows st ++ if insert_fails env then [] else collect env)%list.
Proof.
  unfold tick. cbn [fst].
  destruct (collect env) as [|r b]; cbn [written insert attempts rows].
  - destruct (insert_fails env); rewrite !app_nil_r; auto.
  - destruct (insert_fails env); rewrite ?app_nil_r; auto.
Qed.

(** X11: over any number of ticks the store is called once for every tick
    that collected a row, with that tick's rows, whether or not earlier calls
    failed; and the rows it holds in the end are those of the ticks whose
    call did not fail, in order. A failed insert costs its own batch only. *)
Theorem run_store (envs : list tick_env) (st : store) :
  attempts (run envs st) =
    (attempts st ++ flat_map (fun env => written (collect env)) envs)%list /\
  rows (run envs st) =
    (rows st ++
     flat_map (fun env => if insert_fails env then [] else collect env) envs)%list.
Proof.
  revert st. induction envs as [|env envs IH]; intros st.
  - cbn. now rewrite !app_nil_r.
  - unfold run in *. cbn [fold_left flat_map].
    destruct (IH (fst (tick env st))) as [IHa IHr].
    destruct (tick_store env st) as [Ta Tr].
    rewrite IHa, IHr, Ta, Tr, <- !app_assoc. auto.
Qed.

Lemma from_others_app (s : string) (a b : list market_data) :
  from_others s (a ++ b) = (from_others s a ++ from_others s b)%list.
Proof. apply filter_app. Qed.

Lemma from_others_append_if (s : string) (x : option market_data)
  (b : list market_data) :
  from_others s (append_if x b) =
  (from_others s b ++
   match x with Some r => from_others s [r] | None => [] end)%list.
Proof.
  destruct x as [r|]; cbn [append_if];
    [apply from_others_app | now rewrite app_nil_r].
Qed.

Lemma from_others_own (s : string) (x : option market_data) :
  (forall r, x = Some r -> source r = s) ->
  match x with Some r => from_others s [r] | None => [] end = [].
Proof.
  intros H. destruct x as [r|]; [|reflexivity].
  unfold from_others. cbn [filter]. rewrite (H r eq_refl).
  now rewrite String.eqb_refl.
Qed.

Lemma from_others_collect (s : string) (env : tick_env) :
  from_others s (collect env) =
  (match fetch_bitkub (bitkub_response env) with
   | Some r => from_others s [r] | None => [] end ++
   match fetch_binance_th (binance_th_response env) with
   | Some r => from_others s [r] | None => [] end ++
   match fetch_maxbit (maxbit_response env) with
   | Some r => from_others s [r] | None => [] end ++
   match fetch_fx (fx_response env) with
   | Some r => from_others s [r] | None => [] end)%list.
Proof.
  unfold collect. rewrite !from_others_append_if. cbn [from_others filter app].
  now rewrite <- !app_assoc.
Qed.

(** X12: what a tick collects from the other three sources does not depend
    on the answer of the fourth: two ticks that differ in one venue's
    response only collect the same rows from the other venues, in the same
    order. *)
Theorem connector_isolation (env env' : tick_env) :
  (binance_th_response env = binance_th_response env' ->
   maxbit_response env = maxbit_response env' ->
   fx_response env = fx_response env' ->
   from_others "bitkub"%string (collect env) = from_others "bitkub"%string (collect env')) /\
  (bitkub_response env = bitkub_response env' ->
   maxbit_response env = maxbit_response env' ->
   fx_response env = fx_response env' ->
   from_others "binance_th"%string (collect env)
     = from_others "binance_th"%string (collect env')) /\
  (bitkub_response env = bitkub_response env' ->
   binance_th_response env = binance_th_response env' ->
   fx_response env = fx_response env' ->
   from_others "maxbit"%string (collect env) = from_others "maxbit"%string (collect env')) /\
  (bitkub_response env = bitkub_response env' ->
   binance_th_response env = binance_th_response env' ->
   maxbit_response env = maxbit_response env' ->
   from_others "fx"%string (collect env) = from_others "fx"%string (collect env')).
Proof.
  repeat split; intros E1 E2 E3; rewrite !from_others_collect, E1, E2, E3.
  - now rewrite
      (@from_others_own "bitkub" _ (@fetch_bitkub_source (bitkub_response env))),
      (@from_others_own "bitkub" _ (@fetch_bitkub_source (bitkub_response env'))).
  - now rewrite
      (@from_others_own "binance_th" _ (@fetch_binance_th_source (binance_th_response env))),
      (@from_others_own "binance_th" _ (@fetch_binance_th_source (binance_th_response env'))).
  - now rewrite
      (@from_others_own "maxbit" _ (@fetch_maxbit_source (maxbit_response env))),
      (@from_others_own "maxbit" _ (@fetch_maxbit_source (maxbit_response env'))).
  - now rewrite
      (@from_others_own "fx" _ (@fetch_fx_source (fx_response env))),
      (@from_others_own "fx" _ (@fetch_fx_source (fx_response env'))).
Qed.

(** ** The message handler *)

Lemma str_to_float_raises (s : pystr) (e : exn) :
  str_to_float s = Raise e -> e = ValueError.
Proof.
  unfold str_to_float.
  destruct (transform s) as [t|]; [|congruence].
  destruct (if existsb _ t then _ else _) as [u|]; [|congruence].
  destruct (split_sign (strip u)) as [neg body].
  destruct (parse_decimal body) as [[m x]|]; [discriminate|].
  destruct (_ || _); [discriminate|].
  destruct (str_eqb _ _); [discriminate | congruence].
Qed.

Lemma parse_symbol_raises (text : pystr) (acc : list market_data)
  (en : string * pattern) (e : exn) :
  parse_symbol text acc en = Raise e -> e = ValueError.
Proof.
  destruct en as [sym p]. unfold parse_symbol.
  destruct (search (bid_marker p) text) as [bg|]; [|discriminate].
  destruct (search (ask_marker p) text) as [ag|]; [|discriminate].
  cbn [py_float].
  destruct (str_to_float bg) as [b|eb] eqn:Eb; cbn [bind].
  - destruct (str_to_float ag) as [a|ea] eqn:Ea; cbn [bind];
      [discriminate|].
    intros H. injection H as <-. eapply str_to_float_raises; eauto.
  - intros H. injection H as <-. eapply str_to_float_raises; eauto.
Qed.

Lemma parse_prices_raises (text : pystr) (e : exn) :
  parse_prices text = Raise e -> e = ValueError.
Proof.
  unfold parse_prices, patterns. cbn [fold_res].
  destruct (parse_symbol text [] _) as [r1|e1] eqn:E1; cbn [bind].
  - destruct (parse_symbol text r1 _) as [r2|e2] eqn:E2; cbn [bind];
      [discriminate|].
    intros H. injection H as <-. eapply parse_symbol_raises; eauto.
  - intros H. injection H as <-. eapply parse_symbol_raises; eauto.
Qed.

(** The handler on a message with a non-empty text. *)
Lemma handle_message_text (GROUP_ID : option Z) (m : message) (t : pystr)
  (fails : bool) (st : store) :
  text m = Some t -> t <> [] ->
  handle_message GROUP_ID (Some m) fails st =
  if match GROUP_ID with
     | Some g => negb (g =? 0)%Z && negb (chat_id m =? g)%Z
     | None => false
     end
  then Ok st
  else if has_header t then
    updates <- parse_prices t ;;
    match updates with
    | [] => Ok st
    | _ :: _ => Ok (insert fails updates st)
    end
  else Ok st.
Proof.
  intros Ht Hne. unfold handle_message, has_header. rewrite Ht.
  destruct t; [congruence | reflexivity].
Qed.

(** X13: the group restriction. With a restriction to a group other than 0,
    a message from any other chat leaves the store untouched and raises
    nothing, whatever its text; a message from the group itself is handled as
    if there were no restriction; and a restriction to the id 0 restricts
    nothing. *)
Theorem group_restriction (g : Z) (m : message) (fails : bool) (st : store) :
  (g <> 0%Z -> chat_id m <> g ->
   handle_message (Some g) (Some m) fails st = Ok st) /\
  (chat_id m = g ->
   handle_message (Some g) (Some m) fails st =
   handle_message None (Some m) fails st) /\
  handle_message (Some 0%Z) (Some m) fails st =
  handle_message None (Some m) fails st.
Proof.
  assert (G : forall g',
    ((negb (g' =? 0)%Z && negb (chat_id m =? g')%Z) = false ->
     handle_message (Some g') (Some m) fails st =
     handle_message None (Some m) fails st) /\
    ((negb (g' =? 0)%Z && negb (chat_id m =? g')%Z) = true ->
     handle_message (Some g') (Some m) fails st = Ok st)).
  { intros g'. unfold handle_message.
    destruct (text m) as [[|c t]|]; split; intros E; try reflexivity;
      rewrite E; reflexivity. }
  split; [|split].
  - intros Hg Hc. apply G.
    apply Z.eqb_neq in Hg, Hc. now rewrite Hg, Hc.
  - intros <-. apply G. rewrite Z.eqb_refl. apply andb_false_r.
  - apply G. reflexivity.
Qed.

Lemma group_restriction_witness :
  handle_message (Some 42%Z)
    (Some (Samples.message_of Samples.full_stop_text 7)) false
    Samples.empty_store
  = Ok Samples.empty_store.
Proof.
  apply (proj1 (group_restriction 42
                  (Samples.message_of Samples.full_stop_text 7) false
                  Samples.empty_store)).
  - discriminate.
  - discriminate.
Defined.

(** X14: a message without text, with an empty text, or whose text holds
    neither header is ignored: the store is left untouched and nothing is
    raised, even when the text holds quotes the extractor would read or choke
    on. *)
Theorem unmarked_message_ignored (GROUP_ID : option Z) (msg : option message)
  (fails : bool) (st : store) :
  (forall m t, msg = Some m -> text m = Some t -> has_header t = false) ->
  handle_message GROUP_ID msg fails st = Ok st.
Proof.
  intros H. destruct msg as [m|]; [|reflexivity].
  destruct (text m) as [t|] eqn:Ht; [|unfold handle_message; now rewrite Ht].
  destruct t as [|c t]; [unfold handle_message; now rewrite Ht|].
  rewrite (handle_message_text _ _ _ _ Ht) by discriminate.
  rewrite (H m (c :: t) eq_refl Ht).
  destruct GROUP_ID as [g|]; [destruct (negb _ && negb _)|]; reflexivity.
Qed.

Lemma unmarked_message_ignored_witness :
  handle_message None
    (Some (Samples.message_of (Samples.quote "USDT" "31.188." "31.245") 7))
    false Samples.empty_store
  = Ok Samples.empty_store.
Proof.
  apply unmarked_message_ignored.
  intros m t Hm Ht. injection Hm as <-. injection Ht as <-.
  vm_compute. reflexivity.
Defined.

(** X15: whenever the handler returns, either it left the store as it was,
    or it called insert exactly once, with all the rows the extractor read
    from the message (one or two, all from bitazza); the rows are stored
    unless that call failed, and a failed call is not raised further. *)
Theorem handler_writes_once (GROUP_ID : option Z) (msg : option message)
  (fails : bool) (st st' : store) :
  handle_message GROUP_ID msg fails st = Ok st' ->
  st' = st \/
  exists m t b,
    msg = Some m /\ text m = Some t /\ parse_prices t = Ok b /\
    (1 <= List.length b <= 2)%nat /\
    Forall (fun r => source r = "bitazza"%string) b /\
    attempts st' = (attempts st ++ [b])%list /\
    rows st' = if fails then rows st else (rows st ++ b)%list.
Proof.
  intros H. destruct msg as [m|]; [|left; now apply Ok_inj in H].
  destruct (text m) as [t|] eqn:Ht;
    [|unfold handle_message in H; rewrite Ht in H; left; now apply Ok_inj in H].
  destruct t as [|c t];
    [unfold handle_message in H; rewrite Ht in H; left; now apply Ok_inj in H|].
  rewrite (handle_message_text _ _ _ _ Ht) in H by discriminate.
  assert (H' : (updates <- parse_prices (c :: t) ;;
                match updates with
                | [] => Ok st
                | _ :: _ => Ok (insert fails updates st)
                end) = Ok st' \/ Ok st = Ok st').
  { destruct GROUP_ID as [g|]; [destruct (negb _ && negb _)|];
      destruct (has_header (c :: t)); auto. }
  clear H. destruct H' as [H|H]; [|left; now apply Ok_inj in H].
  open_bind H. destruct a as [|r b]; [left; now apply Ok_inj in H|].
  apply Ok_inj in H. subst st'. right.
  exists m, (c :: t), (r :: b). repeat split; auto.
  - simpl. lia.
  - apply parse_prices_inv in Ha as (r1 & r2 & E & H1 & H2).
    apply symbol_rows_length in H1, H2.
    rewrite E, length_app. lia.
  - apply Forall_forall. intros x Hx.
    apply parse_prices_inv in Ha as (r1 & r2 & E & H1 & H2).
    rewrite E in Hx. apply in_app_or in Hx.
    destruct Hx as [Hx|Hx];
      [ destruct (symbol_rows_shape x H1 Hx) as (b' & a' & -> & _)
      | destruct (symbol_rows_shape x H2 Hx) as (b' & a' & -> & _) ];
      reflexivity.
Qed.

Lemma handler_writes_once_witness :
  insert true [Samples.usdt_row Samples.both_symbols_text;
               Samples.usdc_row Samples.both_symbols_text]
    Samples.empty_store = Samples.empty_store \/
  exists m t b,
    Some (Samples.message_of Samples.both_symbols_text 7) = Some m /\
    text m = Some t /\ parse_prices t = Ok b /\
    (1 <= List.length b <= 2)%nat /\
    Forall (fun r => source r = "bitazza"%string) b /\
    attempts (insert true [Samples.usdt_row Samples.both_symbols_text;
                           Samples.usdc_row Samples.both_symbols_text]
                Samples.empty_store)
      = (attempts Samples.empty_store ++ [b])%list /\
    rows (insert true [Samples.usdt_row Samples.both_symbols_text;
                       Samples.usdc_row Samples.both_symbols_text]
            Samples.empty_store)
      = if true then rows Samples.empty_store
        else (rows Samples.empty_store ++ b)%list.
Proof.
  apply (@handler_writes_once None
           (Some (Samples.message_of Samples.both_symbols_text 7)) true
           Samples.empty_store).
  vm_compute. reflexivity.
Defined.

(** Whether the restriction lets a chat through. *)
Lemma listening_cases (GROUP_ID : option Z) (c : Z) :
  match GROUP_ID with
  | Some g => negb (g =? 0)%Z && negb (c =? g)%Z
  | None => false
  end = false <->
  GROUP_ID = None \/ GROUP_ID = Some 0%Z \/ GROUP_ID = Some c.
Proof.
  destruct GROUP_ID as [g|]; split; auto.
  - intros H. apply andb_false_iff in H as [H|H];
      apply negb_false_iff in H; apply Z.eqb_eq in H; subst; auto.
  - intros [H|[H|H]]; try discriminate; injection H as ->.
    + reflexivity.
    + rewrite Z.eqb_refl. apply andb_false_r.
Qed.

(** X16: the handler raises exactly when the message passes the group
    restriction, its text holds a header, and the extractor raises on that
    text; what it raises is then the extractor's [ValueError]. A failing
    store never makes it raise. *)
Theorem handler_raises_exactly (GROUP_ID : option Z) (msg : option message)
  (fails : bool) (st : store) (e : exn) :
  handle_message GROUP_ID msg fails st = Raise e <->
  e = ValueError /\
  exists m t,
    msg = Some m /\ text m = Some t /\
    (GROUP_ID = None \/ GROUP_ID = Some 0%Z \/ GROUP_ID = Some (chat_id m)) /\
    has_header t = true /\
    parse_prices t = Raise ValueError.
Proof.
  split.
  - intros H. destruct msg as [m|]; [|discriminate].
    destruct (text m) as [t|] eqn:Ht;
      [|unfold handle_message in H; rewrite Ht in H; discriminate].
    destruct t as [|c t];
      [unfold handle_message in H; rewrite Ht in H; discriminate|].
    rewrite (handle_message_text _ _ _ _ Ht) in H by discriminate.
    destruct (match GROUP_ID with Some _ => _ | None => _ end) eqn:L;
      [discriminate|].
    apply listening_cases in L.
    destruct (has_header (c :: t)) eqn:Hh; [|discriminate].
    destruct (parse_prices (c :: t)) as [b|e'] eqn:P; cbn [bind] in H.
    + destruct b; discriminate.
    + injection H as <-. pose proof (parse_prices_raises _ P) as ->.
      split; [reflexivity|]. exists m, (c :: t). auto.
  - intros (-> & m & t & -> & Ht & L & Hh & P).
    assert (Hne : t <> []) by (intros ->; discriminate).
    rewrite (handle_message_text _ _ _ _ Ht Hne).
    apply listening_cases in L. rewrite L, Hh, P. reflexivity.
Qed.

Lemma handler_raises_exactly_witness :
  handle_message (Some 7%Z)
    (Some (Samples.message_of Samples.second_point_text 7)) true
    Samples.empty_store
  = Raise ValueError.
Proof.
  apply handler_raises_exactly. split; [reflexivity|].
  exists (Samples.message_of Samples.second_point_text 7),
    Samples.second_point_text.
  repeat split; auto; vm_compute; reflexivity.
Defined.

(** ** The patterns *)

Lemma starts_with_app (m s : pystr) :
  starts_with m s = true <-> exists rest, s = (m ++ rest)%list.
Proof.
  revert s. induction m as [|x m IH]; intros s; simpl.
  - split; eauto.
  - destruct s as [|y s]; split; try discriminate.
    + intros (rest & H). discriminate.
    + intros H. apply andb_prop in H as [Hx Hm].
      apply N.eqb_eq in Hx. subst y.
      apply IH in Hm as (rest & ->). eauto.
    + intros (rest & H). injection H as -> ->.
      rewrite N.eqb_refl. apply IH. eauto.
Qed.

Lemma skipn_app_length (m rest : pystr) :
  skipn (List.length m) (m ++ rest) = rest.
Proof. induction m; simpl; auto. Qed.

(** The run [take_num] returns and what is left after it. *)
Lemma take_num_app (s : pystr) :
  exists post,
    s = (take_num s ++ post)%list /\
    Forall (fun c => is_num_char c = true) (take_num s) /\
    (forall c post', post = c :: post' -> is_num_char c = false).
Proof.
  induction s as [|c s (post & E & F & P)]; simpl.
  - exists []. repeat split; [constructor | discriminate].
  - destruct (is_num_char c) eqn:N.
    + exists post. simpl. rewrite <- E. repeat split; auto.
    + exists (c :: s). repeat split; [constructor|].
      intros c' p' H. injection H as <- <-. exact N.
Qed.

Lemma take_num_unique (g post : pystr) :
  Forall (fun c => is_num_char c = true) g ->
  (forall c post', post = c :: post' -> is_num_char c = false) ->
  take_num (g ++ post) = g.
Proof.
  intros F P. induction F as [|c g Hc F IH]; simpl.
  - destruct post as [|c post']; [reflexivity|].
    simpl. now rewrite (P c post' eq_refl).
  - now rewrite Hc, IH.
Qed.

Lemma match_here_exactly (m s g : pystr) :
  match_here m s = Some g <->
  exists post,
    s = (m ++ g ++ post)%list /\ g <> [] /\
    Forall (fun c => is_num_char c = true) g /\
    (forall c post', post = c :: post' -> is_num_char c = false).
Proof.
  unfold match_here. split.
  - destruct (starts_with m s) eqn:S; [|discriminate].
    apply starts_with_app in S as (rest & ->).
    rewrite skipn_app_length.
    destruct (take_num_app rest) as (post & E & F & P).
    destruct (take_num rest) as [|c g'] eqn:T; [discriminate|].
    intros H. injection H as <-. exists post.
    split; [now rewrite <- E|]. split; [discriminate|]. auto.
  - intros (post & -> & Hne & F & P).
    replace (starts_with m (m ++ g ++ post)) with true
      by (symmetry; apply starts_with_app; eauto).
    rewrite skipn_app_length, (take_num_unique F P).
    destruct g; [congruence | reflexivity].
Qed.

Lemma search_leftmost (m text g : pystr) :
  search m text = Some g <->
  exists pre suf,
    text = (pre ++ suf)%list /\ match_here m suf = Some g /\
    (forall pre' suf', text = (pre' ++ suf')%list ->
       (List.length pre' < List.length pre)%nat -> match_here m suf' = None).
Proof.
  induction text as [|c t IH]; simpl.
  - split.
    + intros H. exists [], []. repeat split.
      * destruct (match_here m []); congruence.
      * intros pre' suf' _ L. simpl in L. lia.
    + intros (pre & suf & E & M & _).
      symmetry in E. apply app_eq_nil in E as [-> ->]. now rewrite M.
  - destruct (match_here m (c :: t)) as [g0|] eqn:M0; split.
    + intros H. exists [], (c :: t). repeat split; [congruence|].
      intros pre' suf' _ L. simpl in L. lia.
    + intros (pre & suf & E & M & L). destruct pre as [|c' pre].
      * simpl in E. subst suf. congruence.
      * specialize (L [] (c :: t) eq_refl). simpl in L.
        rewrite L in M0 by lia. discriminate.
    + intros H. apply IH in H as (pre & suf & -> & M & L).
      exists (c :: pre), suf. repeat split; auto.
      intros pre' suf' E Hl. destruct pre' as [|c' pre'].
      * simpl in E. now subst suf'.
      * simpl in E. injection E as <- E. apply (L pre' suf' E).
        simpl in Hl. lia.
    + intros (pre & suf & E & M & L). destruct pre as [|c' pre].
      * simpl in E. subst suf. congruence.
      * simpl in E. injection E as <- E. apply IH.
        exists pre, suf. repeat split; auto.
        intros pre' suf' E' Hl.
        apply (L (c :: pre') suf'); [simpl; now rewrite E'| simpl; lia].
Qed.

(** X17: a pattern finds the number [g] in a text exactly when the text
    reads [pre ++ marker ++ g ++ post] where [g] is a non-empty run of digits
    and points that [post] does not prolong, and no earlier position of the
    text carries the marker followed by such a run: the first occurrence
    wins, and the number is taken as long as it gets. *)
Theorem search_exactly (m text g : pystr) :
  search m text = Some g <->
  exists pre post,
    text = (pre ++ m ++ g ++ post)%list /\ g <> [] /\
    Forall (fun c => is_num_char c = true) g /\
    (forall c post', post = c :: post' -> is_num_char c = false) /\
    (forall pre' suf', text = (pre' ++ suf')%list ->
       (List.length pre' < List.length pre)%nat -> match_here m suf' = None).
Proof.
  rewrite search_leftmost. split.
  - intros (pre & suf & -> & M & L).
    apply match_here_exactly in M as (post & -> & Hne & F & P).
    exists pre, post. auto.
  - intros (pre & post & -> & Hne & F & P & L).
    exists pre, (m ++ g ++ post)%list. repeat split; auto.
    apply match_here_exactly. eauto.
Qed.

Lemma search_exactly_witness :
  exists pre post,
    Samples.twice_quoted_text
      = (pre ++ bid_marker (snd usdt_entry) ++ lit "31.188" ++ post)%list /\
    lit "31.188" <> [] /\
    Forall (fun c => is_num_char c = true) (lit "31.188") /\
    (forall c post', post = c :: post' -> is_num_char c = false) /\
    (forall pre' suf', Samples.twice_quoted_text = (pre' ++ suf')%list ->
       (List.length pre' < List.length pre)%nat ->
       match_here (bid_marker (snd usdt_entry)) suf' = None).
Proof.
  apply (proj1 (search_exactly (bid_marker (snd usdt_entry))
                  Samples.twice_quoted_text (lit "31.188"))).
  vm_compute. reflexivity.
Defined.

(** ** Which matched numbers [float()] accepts *)

Local Open Scope N_scope.

Lemma num_char_cases (c : N) :
  is_num_char c = true -> is_digit c = true \/ c = 46.
Proof.
  unfold is_num_char. intros H. apply orb_prop in H as [H|H]; auto.
  right. now apply N.eqb_eq.
Qed.

Lemma digit_bounds (c : N) : is_digit c = true -> 48 <= c <= 57.
Proof.
  unfold is_digit. intros H. apply andb_prop in H as [H1 H2].
  apply N.leb_le in H1, H2. lia.
Qed.

Lemma num_char_bounds (c : N) : is_num_char c = true -> 46 <= c <= 57.
Proof.
  intros H. apply num_char_cases in H as [H| ->]; [|lia].
  apply digit_bounds in H. lia.
Qed.

Lemma transform_num (g : pystr) :
  Forall (fun c => is_num_char c = true) g -> transform g = Some g.
Proof.
  induction 1 as [|c g Hc _ IH]; cbn [transform]; [reflexivity|].
  rewrite IH. unfold to_ascii.
  apply num_char_bounds in Hc.
  replace (c <? 127) with true by (symmetry; apply N.ltb_lt; lia).
  reflexivity.
Qed.

Lemma no_underscore_num (g : pystr) :
  Forall (fun c => is_num_char c = true) g -> existsb (N.eqb 95) g = false.
Proof.
  induction 1 as [|c g Hc _ IH]; cbn [existsb]; [reflexivity|].
  rewrite IH. apply num_char_bounds in Hc.
  replace (95 =? c) with false by (symmetry; apply N.eqb_neq; lia).
  reflexivity.
Qed.

Lemma lstrip_num (g : pystr) :
  Forall (fun c => is_num_char c = true) g -> lstrip g = g.
Proof.
  intros [|c g' Hc _]; cbn [lstrip]; [reflexivity|].
  apply num_char_bounds in Hc. unfold is_space.
  replace (c <=? 13) with false by (symmetry; apply N.leb_gt; lia).
  replace (c =? 32) with false by (symmetry; apply N.eqb_neq; lia).
  now rewrite andb_false_r.
Qed.

Lemma strip_num (g : pystr) :
  Forall (fun c => is_num_char c = true) g -> strip g = g.
Proof.
  intros F. unfold strip. rewrite (lstrip_num F).
  rewrite lstrip_num by now apply Forall_rev.
  apply rev_involutive.
Qed.

Lemma split_sign_other (c : N) (s : pystr) :
  c <> 45 -> c <> 43 -> split_sign (c :: s) = (false, c :: s).
Proof.
  intros H1 H2. unfold split_sign.
  destruct c as [|p]; [reflexivity|].
  repeat match goal with
  | |- context [match ?q with xI _ => _ | xO _ => _ | xH => _ end] =>
      destruct q
  end; try reflexivity; congruence.
Qed.

Lemma split_sign_num (g : pystr) :
  Forall (fun c => is_num_char c = true) g -> split_sign g = (false, g).
Proof.
  intros [|c g' Hc _]; [reflexivity|].
  apply num_char_bounds in Hc. apply split_sign_other; lia.
Qed.

Lemma not_a_word (g w : pystr) (x : N) :
  Forall (fun c => is_num_char c = true) g -> 58 <= x ->
  str_eqb (map lower g) (x :: w) = false.
Proof.
  intros [|c g' Hc _] Hx; cbn [map str_eqb]; [reflexivity|].
  apply num_char_bounds in Hc. unfold lower.
  replace (65 <=? c) with false by (symmetry; apply N.leb_gt; lia).
  cbn [andb].
  replace (c =? x) with false by (symmetry; apply N.eqb_neq; lia).
  reflexivity.
Qed.

Lemma span_digits_app (s : pystr) :
  s = (fst (span_digits s) ++ snd (span_digits s))%list /\
  Forall (fun c => is_digit c = true) (fst (span_digits s)) /\
  (forall c r, snd (span_digits s) = c :: r -> is_digit c = false).
Proof.
  induction s as [|c s (E & F & P)]; cbn [span_digits].
  - repeat split; [constructor | discriminate].
  - destruct (is_digit c) eqn:D.
    + destruct (span_digits s) as [d r]. cbn [fst snd app] in *.
      repeat split; [congruence | now constructor | exact P].
    + simpl. repeat split; [constructor|].
      intros c' r' H. injection H as <- <-. exact D.
Qed.

Lemma drop_zeros_length (s : pystr) :
  (List.length (drop_zeros s) <= List.length s)%nat.
Proof.
  induction s as [|c s IH]; cbn [drop_zeros List.length]; [lia|].
  destruct (c =? 48); cbn [List.length]; lia.
Qed.

Lemma within_max_digits (n : nat) :
  N.of_nat n <= MAX_DIGITS -> (MAX_DIGITS <? N.of_nat n) = false.
Proof. intros H. now apply N.ltb_ge. Qed.

Lemma digits_no_point (d : pystr) :
  Forall (fun c => is_digit c = true) d -> count_occ N.eq_dec d 46 = 0%nat.
Proof.
  induction 1 as [|c d Hc _ IH]; cbn [count_occ]; [reflexivity|].
  apply digit_bounds in Hc. destruct (N.eq_dec c 46); [lia | exact IH].
Qed.

Lemma digits_exist (d : pystr) :
  Forall (fun c => is_digit c = true) d ->
  existsb is_digit d = match d with [] => false | _ => true end.
Proof.
  intros [|c d' Hc _]; cbn [existsb]; [reflexivity | now rewrite Hc].
Qed.

Lemma existsb_digit_app (a b : pystr) :
  existsb is_digit (a ++ 46 :: b) = existsb is_digit (a ++ b).
Proof. rewrite !existsb_app. reflexivity. Qed.

Lemma non_digit_num_char (c : N) :
  is_num_char c = true -> is_digit c = false -> c = 46.
Proof. intros H D. apply num_char_cases in H as [H|H]; congruence. Qed.

Lemma parse_decimal_num (g : pystr) :
  Forall (fun c => is_num_char c = true) g ->
  N.of_nat (List.length g) <= MAX_DIGITS ->
  (parse_decimal g <> None <-> sound_number g = true).
Proof.
  intros F L. unfold parse_decimal, sound_number.
  destruct (span_digits_app g) as (E1 & D1 & P1).
  destruct (span_digits g) as [ip r1]. cbn [fst snd] in *.
  destruct r1 as [|c r].
  - rewrite app_nil_r in E1. subst ip. rewrite app_nil_r.
    rewrite (digits_no_point D1), (digits_exist D1). cbn [Nat.leb andb].
    destruct g as [|c g']; [split; congruence|].
    rewrite within_max_digits
      by (pose proof (drop_zeros_length (c :: g')); lia).
    cbn [orb List.length N.of_nat]. split; [reflexivity | discriminate].
  - assert (c = 46).
    { apply non_digit_num_char; [|now apply (P1 c r)].
      rewrite E1 in F. apply Forall_app in F as [_ F]. now inversion F. }
    subst c. cbv beta iota.
    destruct (span_digits_app r) as (E2 & D2 & P2).
    destruct (span_digits r) as [fp r2]. cbn [fst snd] in *.
    assert (Lg : List.length g
                 = (List.length (ip ++ fp) + 1 + List.length r2)%nat).
    { rewrite E1, E2, !length_app. cbn [List.length]. rewrite length_app. lia. }
    assert (C : count_occ N.eq_dec g 46
                = (1 + count_occ N.eq_dec r2 46%N)%nat).
    { rewrite E1, E2, count_occ_app, (digits_no_point D1).
      cbn [count_occ]. destruct (N.eq_dec 46 46); [|congruence].
      now rewrite count_occ_app, (digits_no_point D2). }
    assert (X : existsb is_digit g = existsb is_digit (ip ++ fp ++ r2)).
    { rewrite E1, E2. apply existsb_digit_app. }
    assert (Lf : (List.length fp <= List.length (ip ++ fp))%nat)
      by (rewrite length_app; lia).
    rewrite C, X.
    destruct r2 as [|c2 r2'].
    + rewrite app_nil_r. cbn [count_occ Nat.add Nat.leb andb].
      rewrite digits_exist by (apply Forall_app; auto).
      destruct (ip ++ fp)%list as [|d ds] eqn:Eds; [split; congruence|].
      rewrite within_max_digits
        by (pose proof (drop_zeros_length (d :: ds)); lia).
      rewrite within_max_digits by (cbn [List.length] in *; lia).
      cbn [orb]. split; [reflexivity | discriminate].
    + assert (c2 = 46).
      { apply non_digit_num_char; [|now apply (P2 c2 r2')].
        rewrite E1, E2 in F. apply Forall_app in F as [_ F].
        inversion F as [|? ? _ F']. apply Forall_app in F' as [_ F'].
        now inversion F'. }
      subst c2. cbn [count_occ]. destruct (N.eq_dec 46 46); [|congruence].
      cbn [Nat.add Nat.leb andb].
      split; [|discriminate]. intros H. exfalso. apply H.
      destruct (ip ++ fp)%list; [reflexivity|].
      destruct (_ || _); reflexivity.
Qed.

(** X18: on a run of digits and points, as the patterns match them,
    [float()] returns exactly when the run holds at most one point and at
    least one digit (the run being no longer than the 10^9 digits CPython
    reads). *)
Theorem float_accepts_sound_numbers (g : pystr) :
  Forall (fun c => is_num_char c = true) g ->
  N.of_nat (List.length g) <= MAX_DIGITS ->
  ((exists f, py_float (PStr g) = Ok f) <-> sound_number g = true).
Proof.
  intros F L. rewrite <- (parse_decimal_num F L).
  cbn [py_float]. unfold str_to_float.
  rewrite (transform_num F), (no_underscore_num F), (strip_num F),
    (split_sign_num F).
  destruct (parse_decimal g) as [[m e]|].
  - split; [discriminate | eauto].
  - change (lit "inf") with (105 :: lit "nf").
    change (lit "infinity") with (105 :: lit "nfinity").
    change (lit "nan") with (110 :: lit "an").
    rewrite !(not_a_word _ F) by lia. cbn [orb].
    split; [intros (f & H); discriminate | congruence].
Qed.

Lemma float_accepts_sound_numbers_witness :
  (exists f, py_float (PStr (lit "31.188")) = Ok f) <->
  sound_number (lit "31.188") = true.
Proof.
  apply float_accepts_sound_numbers.
  - repeat constructor.
  - vm_compute. discriminate.
Defined.

Lemma search_num (m text g : pystr) :
  search m text = Some g ->
  Forall (fun c => is_num_char c = true) g /\
  (List.length g <= List.length text)%nat.
Proof.
  intros H. apply search_leftmost in H as (pre & suf & -> & M & _).
  apply match_here_exactly in M as (post & -> & _ & F & _).
  split; [exact F|]. rewrite !length_app. lia.
Qed.

Lemma float_of_str_cases (g : pystr) :
  (exists f, py_float (PStr g) = Ok f) \/
  py_float (PStr g) = Raise ValueError.
Proof.
  destruct (py_float (PStr g)) as [f|e] eqn:E; [eauto|].
  right. cbn [py_float] in E. now rewrite (str_to_float_raises _ E).
Qed.

Lemma parse_symbol_raises_exactly (text : pystr) (acc : list market_data)
  (en : string * pattern) :
  N.of_nat (List.length text) <= MAX_DIGITS ->
  (parse_symbol text acc en = Raise ValueError <-> malformed_quote text en).
Proof.
  intros L. destruct en as [sym p]. unfold malformed_quote, parse_symbol.
  cbn [snd].
  destruct (search (bid_marker p) text) as [bg|] eqn:Hb;
    [|split; [discriminate | intros (? & ? & ? & _); discriminate]].
  destruct (search (ask_marker p) text) as [ag|] eqn:Ha;
    [|split; [discriminate | intros (? & ? & _ & ? & _); discriminate]].
  destruct (search_num _ _ Hb) as [Fb Lb].
  destruct (search_num _ _ Ha) as [Fa La].
  assert (Sb := float_accepts_sound_numbers Fb ltac:(lia)).
  assert (Sa := float_accepts_sound_numbers Fa ltac:(lia)).
  destruct (float_of_str_cases bg) as [(b & Eb) | Eb];
  destruct (float_of_str_cases ag) as [(a & Ea) | Ea];
    rewrite Eb; cbn [bind]; try rewrite Ea; cbn [bind].
  - split; [discriminate|].
    intros (bg' & ag' & Eb' & Ea' & [S|S]).
    + injection Eb' as <-. rewrite (proj1 Sb) in S by eauto. discriminate.
    + injection Ea' as <-. rewrite (proj1 Sa) in S by eauto. discriminate.
  - split; [intros _ | reflexivity].
    exists bg, ag. repeat split. right.
    destruct (sound_number ag); [|reflexivity].
    destruct (proj2 Sa eq_refl) as (f & Ef). congruence.
  - split; [intros _ | reflexivity].
    exists bg, ag. repeat split. left.
    destruct (sound_number bg); [|reflexivity].
    destruct (proj2 Sb eq_refl) as (f & Ef). congruence.
  - split; [intros _ | reflexivity].
    exists bg, ag. repeat split. left.
    destruct (sound_number bg); [|reflexivity].
    destruct (proj2 Sb eq_refl) as (f & Ef). congruence.
Qed.

(** X19: on a text of at most 10^9 characters the extractor raises exactly
    when, for one of the two symbols, both patterns match and one of the two
    matched numbers is no float literal (no digit, or a second point); what it
    raises is [ValueError]. *)
Theorem parse_prices_raises_exactly (text : pystr) :
  N.of_nat (List.length text) <= MAX_DIGITS ->
  ((exists e, parse_prices text = Raise e) <->
   exists en, In en patterns /\ malformed_quote text en) /\
  (forall e, parse_prices text = Raise e -> e = ValueError).
Proof.
  intros L. split; [|intros e; apply parse_prices_raises].
  unfold parse_prices, patterns. cbn [fold_res].
  pose proof (fun acc => @parse_symbol_raises_exactly text acc usdt_entry L) as R1.
  pose proof (fun acc => @parse_symbol_raises_exactly text acc usdc_entry L) as R2.
  unfold usdt_entry, usdc_entry, patterns in R1, R2. cbn [nth] in R1, R2.
  split.
  - intros (e & H).
    destruct (parse_symbol text [] _) as [r1|e1] eqn:E1; cbn [bind] in H.
    + destruct (parse_symbol text r1 _) as [r2|e2] eqn:E2; cbn [bind] in H;
        [discriminate|].
      rewrite (parse_symbol_raises _ _ _ E2) in E2. apply R2 in E2.
      eexists. split; [right; left; reflexivity | exact E2].
    + rewrite (parse_symbol_raises _ _ _ E1) in E1. apply R1 in E1.
      eexists. split; [left; reflexivity | exact E1].
  - intros (en & Hin & M). exists ValueError.
    destruct (parse_symbol text [] _) as [r1|e1] eqn:E1; cbn [bind].
    + destruct Hin as [<-|[<-|[]]].
      * apply (R1 []) in M. congruence.
      * apply (R2 r1) in M. now rewrite M.
    + now rewrite (parse_symbol_raises _ _ _ E1).
Qed.

Lemma parse_prices_raises_exactly_witness :
  ((exists e, parse_prices Samples.second_point_text = Raise e) <->
   exists en, In en patterns /\ malformed_quote Samples.second_point_text en) /\
  (forall e, parse_prices Samples.second_point_text = Raise e -> e = ValueError).
Proof.
  apply parse_prices_raises_exactly. vm_compute. discriminate.
Defined.

Local Close Scope N_scope.

(** ** The debug checks against the connectors *)

Lemma check_depth_json (venue src sym : string) (data : pyval) :
  check_depth venue (Json data) =
  match depth_record src sym data with
  | Ok r => Ok (quote_of venue r)
  | Raise e => Raise e
  end.
Proof.
  unfold check_depth, depth_record. cbn [request_json bind].
  destruct (getitem data (lit "bids")) as [bv|]; cbn [bind]; [|reflexivity].
  destruct (levels bv) as [bs|]; cbn [bind]; [|reflexivity].
  destruct (getitem data (lit "asks")) as [av|]; cbn [bind]; [|reflexivity].
  destruct (levels av) as [az|]; cbn [bind]; reflexivity.
Qed.

Lemma getitem_contains (data : pyval) (k : pystr) (v : pyval) :
  getitem data k = Ok v -> truthy data = true /\ contains k data = Ok true.
Proof.
  destruct data as [| | | | | |items]; simpl; try discriminate.
  destruct (dict_find k items) eqn:E; [|discriminate]. intros _.
  split; [|reflexivity]. destruct items; [discriminate | reflexivity].
Qed.

Lemma depth_record_keys (src sym : string) (data : pyval) (r : market_data) :
  depth_record src sym data = Ok r ->
  truthy data = true /\
  contains (lit "bids") data = Ok true /\ contains (lit "asks") data = Ok true.
Proof.
  intros H.
  apply depth_record_inv in H as (bv & av & bs & az & Gb & _ & Ga & _ & _).
  apply getitem_contains in Gb as [T Cb].
  apply getitem_contains in Ga as [_ Ca]. auto.
Qed.

(** X20: the depth checks of the debug script agree with the connectors:
    whenever [fetch_bitkub] yields a row, [check_bitkub] prints that row's
    bid, ask and price, and whenever it yields none, [check_bitkub] prints an
    error; likewise [check_binance] and [fetch_binance_th]. That the checks
    do not test for the keys makes no difference to the quote. *)
Theorem depth_checks_agree (resp : response) :
  match fetch_bitkub resp with
  | Some r => check_bitkub resp = quote_of "Bitkub" r
  | None => exists e, check_bitkub resp = Error "Bitkub" e
  end /\
  match fetch_binance_th resp with
  | Some r => check_binance resp = quote_of "BinanceTH" r
  | None => exists e, check_binance resp = Error "BinanceTH" e
  end.
Proof.
  unfold check_bitkub, check_binance, or_error.
  destruct resp as [| |data];
    try (split; eexists; reflexivity).
  rewrite (check_depth_json "Bitkub" "bitkub" "THB_USDT"),
    (check_depth_json "BinanceTH" "binance_th" "USDTTHB").
  split.
  - destruct (fetch_bitkub (Json data)) as [r|] eqn:F.
    + apply fetch_bitkub_inv in F as (d & E & F). injection E as <-.
      now rewrite F.
    + destruct (depth_record "bitkub" "THB_USDT" data) as [r|e] eqn:D;
        [|eauto].
      destruct (depth_record_keys _ _ _ D) as (T & Cb & Ca).
      unfold fetch_bitkub, fetch_bitkub_try, or_none in F.
      cbn [request_json bind] in F. rewrite T, Cb, Ca in F.
      cbn [and_then bind] in F. rewrite D in F. discriminate.
  - destruct (fetch_binance_th (Json data)) as [r|] eqn:F.
    + apply fetch_binance_th_inv in F as (d & E & F). injection E as <-.
      now rewrite F.
    + destruct (depth_record "binance_th" "USDTTHB" data) as [r|e] eqn:D;
        [|eauto].
      destruct (depth_record_keys _ _ _ D) as (T & Cb & Ca).
      unfold fetch_binance_th, fetch_binance_th_try, or_none in F.
      cbn [request_json bind] in F. rewrite Cb in F.
      cbn [and_then bind] in F. rewrite Ca in F. cbn [bind] in F.
      rewrite D in F. discriminate.
Qed.

(** X21: [check_maxbit] against [fetch_maxbit]: whenever the connector yields
    a row the check prints that row's bid, ask and price; when the connector
    yields none the check prints either the payload, which happens exactly
    when the payload is an object whose status code is not "000", or an
    error. A payload with status "000" and no [result] is silently dropped by
    the connector and reported as an error by the check. *)
Theorem maxbit_check_agrees (resp : response) :
  match fetch_maxbit resp with
  | Some r => check_maxbit resp = quote_of "MaxBit" r
  | None =>
      (exists e, check_maxbit resp = Error "MaxBit" e) \/
      (exists data, resp = Json data /\
                    check_maxbit resp = ErrorResponse "MaxBit" data)
  end /\
  (forall data, check_maxbit resp = ErrorResponse "MaxBit" data <->
     exists items, resp = Json (PDict items) /\ data = PDict items /\
       dict_find (lit "responseCode") items <> Some (PStr (lit "000"))).
Proof.
  unfold check_maxbit, fetch_maxbit, fetch_maxbit_try, or_error, or_none.
  destruct resp as [| |data]; cbn [request_json bind];
    try (split; [left; eexists; reflexivity|];
         intros d; split; [discriminate | intros (i & E & _); discriminate]).
  destruct data as [| | | | | |items]; cbn [get bind];
    try (split; [left; eexists; reflexivity|];
         intros d; split; [discriminate | intros (i & E & _); discriminate]).
  destruct (dict_find (lit "responseCode") items) as [code|] eqn:Hc;
    cbn [bind].
  - destruct (eq_str code (lit "000")) eqn:He; cbn [and_then bind].
    + apply eq_str_true in He. subst code. cbn [contains getitem].
      assert (Dropped : forall e : exn,
        ((exists e', Error "MaxBit" e = Error "MaxBit" e') \/
         (exists data, Json (PDict items) = Json data /\
                       Error "MaxBit" e = ErrorResponse "MaxBit" data)) /\
        (forall data, Error "MaxBit" e = ErrorResponse "MaxBit" data <->
           exists i, Json (PDict items) = Json (PDict i) /\ data = PDict i /\
             dict_find (lit "responseCode") i <> Some (PStr (lit "000")))).
      { intros e. split; [left; eauto|]. intros d.
        split; [discriminate|].
        intros (i & E & _ & N). injection E as <-. congruence. }
      destruct (dict_find (lit "result") items) as [result|];
        cbn [bind]; [|apply Dropped].
      destruct (getitem result (lit "bid")) as [b|]; cbn [bind];
        [|apply Dropped].
      destruct (py_float b) as [fb|]; cbn [bind]; [|apply Dropped].
      destruct (getitem result (lit "ask")) as [a|]; cbn [bind];
        [|apply Dropped].
      destruct (py_float a) as [fa|]; cbn [bind]; [|apply Dropped].
      split; [reflexivity|]. intros d.
      split; [discriminate|].
      intros (i & E & _ & N). injection E as <-. congruence.
    + split; [right; eauto|]. intros d. split.
      * intros H. injection H as <-. exists items. repeat split.
        intros E. rewrite Hc in E. injection E as ->.
        cbn [eq_str] in He.
        assert (str_eqb (lit "000") (lit "000") = true) by reflexivity.
        congruence.
      * intros (i & E & -> & _). now injection E as <-.
  - cbn [eq_str and_then bind]. split; [right; eauto|].
    intros d. split.
    + intros H. injection H as <-. exists items. repeat split. congruence.
    + intros (i & E & -> & _). now injection E as <-.
Qed.

Lemma connector_isolation_witness :
  from_others "binance_th" (collect Samples.rough_tick)
  = from_others "binance_th" (collect Samples.calm_tick).
Proof.
  apply (proj1 (proj2 (connector_isolation Samples.rough_tick
                         Samples.calm_tick)));
    reflexivity.
Defined.
